(** * blarify: the Neo4j graph manager and its query tool

    A shallow embedding of [blarify/db_managers/neo4j_manager.py],
    [blarify/db_managers/models/node_result.py] and
    [blarify/agent/tools/GraphQueryTool.py].

    - Python strings are [string] (bytes; every pattern of the escaper is
      ASCII, so replacing on the UTF-8 bytes is replacing on the text).
    - Python dicts used as property maps are [gmap string value].
    - The database the driver talks to is a property graph [Store]; each
      Cypher text of the source is one function on it.
    - A session is a state monad over the store and the log of the
      statements that were run. *)

From Stdlib Require Import Ascii String.
From stdpp Require Import gmap strings list fin_maps pretty.

Local Open Scope string_scope.
Local Open Scope list_scope.
Local Open Scope nat_scope.
Local Open Scope stdpp_scope.

(** ** Query escaper: [Neo4jManager._format_query] *)

Module Escaper.

(** The character [\]; Python writes it as the literal of two characters. *)
Definition backslash : ascii := ascii_of_nat 92.

(** The character of code 34, the double quote. *)
Definition dquote : ascii := ascii_of_nat 34.

Definition str1 (c : ascii) : string := String c EmptyString.

(** [str.replace(old, new)] for a non-empty [old]: the occurrences of [old]
    are found left to right and do not overlap; [skip] counts the characters
    of a found occurrence that are still to be dropped. *)
Fixpoint replace_from (old new : string) (skip : nat) (s : string) : string :=
  match s with
  | EmptyString => EmptyString
  | String c s' =>
      match skip with
      | S k => replace_from old new k s'
      | O =>
          if String.prefix old s
          then new +:+ replace_from old new (String.length old - 1) s'
          else String c (replace_from old new 0 s')
      end
  end.

Definition replace (s old new : string) : string := replace_from old new 0 s.

(** The list literal of the source, in its order. *)
Definition special_characters : list string :=
  [ "+"; "-"; "&&"; "||"; "!"; "("; ")"; "{"; "}"; "["; "]"; "^";
    str1 dquote; "~"; "*"; "?"; ":"; str1 backslash; "/" ].

(** [for character in special_characters:
       query = query.replace(character, f"\\{character}")] *)
Definition _format_query (query : string) : string :=
  foldl (fun q character => replace q character (String backslash character))
        query special_characters.

(** The escaper as the specification words it: one scan, a marker before
    each special character as it is met. Only the one-character entries
    matter for the inputs compared below. *)
Definition is_special (c : ascii) : bool :=
  bool_decide (str1 c ∈ special_characters).

Fixpoint escape_single_scan (s : string) : string :=
  match s with
  | EmptyString => EmptyString
  | String c s' =>
      if is_special c
      then String backslash (String c (escape_single_scan s'))
      else String c (escape_single_scan s')
  end.

End Escaper.


(** ** The property graph behind the driver *)

Module Graph.

(** Property values. Neo4j stores no null property, and the writer is given
    scalars (identifiers, names, paths, line numbers, source text). *)
Inductive value :=
| VStr (s : string)
| VInt (z : Z)
| VBool (b : bool).

#[global] Instance value_eq_dec : EqDecision value.
Proof. solve_decision. Defined.

(** A stored node: its label set (kept without repeats, in the order of
    creation) and its property map. *)
Record StoredNode := {
  labels : list string;
  properties : gmap string value
}.

(** A stored relationship; the endpoints are positions in [nodes]. *)
Record StoredRel := {
  start_node : nat;
  rel_type : string;
  rel_properties : gmap string value;
  end_node : nat
}.

#[global] Instance StoredNode_eq_dec : EqDecision StoredNode.
Proof. solve_decision. Defined.

#[global] Instance StoredRel_eq_dec : EqDecision StoredRel.
Proof. solve_decision. Defined.

Record Store := {
  nodes : list StoredNode;
  rels : list StoredRel
}.

Definition empty : Store := {| nodes := []; rels := [] |}.

(** The pattern [(n:L1:..:Lk {k1: v1, ..})]: every label is carried and
    every listed property is present with an equal value. *)
Definition node_matches (ls : list string) (ps : gmap string value)
    (n : StoredNode) : Prop :=
  ls ⊆ labels n ∧ ps ⊆ properties n.

#[global] Instance node_matches_dec ls ps n : Decision (node_matches ls ps n).
Proof. unfold node_matches. apply _. Defined.

(** The pattern [(a)-[r:T {k: v, ..}]->(b)] for bound [a] and [b]. *)
Definition rel_matches (a : nat) (ty : string) (ps : gmap string value)
    (b : nat) (r : StoredRel) : Prop :=
  start_node r = a ∧ rel_type r = ty ∧ ps ⊆ rel_properties r ∧ end_node r = b.

#[global] Instance rel_matches_dec a ty ps b r :
  Decision (rel_matches a ty ps b r).
Proof. unfold rel_matches. apply _. Defined.

(** The positions, from [i] on, of the nodes of [l] that satisfy [P]. *)
Fixpoint positions (P : StoredNode → Prop) `{!∀ n, Decision (P n)}
    (i : nat) (l : list StoredNode) : list nat :=
  match l with
  | [] => []
  | n :: l' =>
      if decide (P n) then i :: positions P (S i) l' else positions P (S i) l'
  end.

(** [MATCH (n:L.. {..})]: the matching nodes, in store order. *)
Definition match_nodes (ls : list string) (ps : gmap string value)
    (st : Store) : list nat :=
  positions (node_matches ls ps) 0 (nodes st).

(** [apoc.merge.node(labels, identProps, {}, {})]:
    [MERGE (n:labels identProps) ON CREATE SET n += {} ON MATCH SET n += {}].
    A node that matches is left as it is; with no match one node is created
    with exactly these labels and properties. *)
Definition apoc_merge_node (ls : list string) (identProps : gmap string value)
    (st : Store) : Store :=
  if decide (Exists (node_matches ls identProps) (nodes st)) then st
  else {| nodes := nodes st ++
                   [ {| labels := remove_dups ls; properties := identProps |} ];
          rels := rels st |}.

(** [apoc.merge.relationship(a, type, identProps, {}, b, {})]:
    [MERGE (a)-[r:type identProps]->(b)] with nothing set on create or on
    match. *)
Definition apoc_merge_relationship (a : nat) (ty : string)
    (identProps : gmap string value) (b : nat) (st : Store) : Store :=
  if decide (Exists (rel_matches a ty identProps b) (rels st)) then st
  else {| nodes := nodes st;
          rels := rels st ++
                  [ {| start_node := a; rel_type := ty;
                       rel_properties := identProps; end_node := b |} ] |}.

(** The relationships from [a] to [b] that carry the merge key. *)
Definition count_rels (ty : string) (ps : gmap string value) (a b : nat)
    (st : Store) : nat :=
  List.length (filter (rel_matches a ty ps b) (rels st)).

(** The batches of [apoc.periodic.iterate]: consecutive runs of [n] items,
    the last one shorter. [fuel] bounds the number of batches. *)
Fixpoint chunks_fuel {A} (fuel n : nat) (l : list A) : list (list A) :=
  match fuel with
  | O => []
  | S fuel' =>
      match l with
      | [] => []
      | _ :: _ => take n l :: chunks_fuel fuel' n (drop n l)
      end
  end.

Definition chunks {A} (n : nat) (l : list A) : list (list A) :=
  chunks_fuel (List.length l) n l.

(** The row [apoc.periodic.iterate] yields, as far as the source reads it. *)
Record IterateStats := {
  batches : nat;
  total : nat
}.

(** [apoc.periodic.iterate(.., .., {batchSize, parallel: false,
    iterateList: true})]: the items are cut into batches, the batches run
    one after the other, and the items of a batch in their order. *)
Definition periodic_iterate {A} (step : A → Store → Store) (batchSize : nat)
    (items : list A) (st : Store) : Store * IterateStats :=
  let bs := chunks batchSize items in
  (foldl (fun st batch => foldl (fun st x => step x st) st batch) st bs,
   {| batches := List.length bs; total := List.length items |}).

End Graph.

(** ** The objects the writer is given *)

(** An element of [nodeList]: the query reads [node.extra_labels],
    [node.type] and [node.attributes]. *)
Module NodeObj.
Record t := {
  extra_labels : list string;
  type : string;
  attributes : gmap string Graph.value
}.
End NodeObj.

(** An element of [edgesList]: the query reads [edgeObject.sourceId],
    [edgeObject.targetId], [edgeObject.type] and [edgeObject.scopeText]. *)
Module EdgeObj.
Record t := {
  sourceId : string;
  targetId : string;
  type : string;
  scopeText : string
}.
End EdgeObj.

(** ** [models/node_result.py] *)

(** A field holds what the record or the property map gave: [None] where
    the property is missing. *)
Module NodeResult.
Record t := {
  node_id : option Graph.value;
  name : option Graph.value;
  node_path : option Graph.value;
  start_line : option Graph.value;
  end_line : option Graph.value;
  text : option Graph.value
}.
End NodeResult.

Module NeighborResult.
Record t := {
  node_id : option Graph.value;
  name : option Graph.value;
  node_type : list string;
  relationship_type : string
}.
End NeighborResult.

(** ** The Cypher statements of the source *)

Module Cypher.
Import Graph.

(** [apoc.map.merge(node.attributes, {repoId: $repoId, entityId: $entityId})]:
    the entries of the second map win. *)
Definition map_merge (attributes : gmap string value)
    (repoId entityId : string) : gmap string value :=
  <["repoId" := VStr repoId]> (<["entityId" := VStr entityId]> attributes).

(** [node.extra_labels + [node.type, 'NODE']] *)
Definition node_labels (node : NodeObj.t) : list string :=
  NodeObj.extra_labels node ++ [NodeObj.type node; "NODE"].

(** The inner statement of [node_creation_query], for one [node]. *)
Definition merge_node (repoId entityId : string) (node : NodeObj.t)
    (st : Store) : Store :=
  apoc_merge_node (node_labels node)
    (map_merge (NodeObj.attributes node) repoId entityId) st.

(** The node the merge creates for [node] when nothing matches. *)
Definition created_node (repoId entityId : string) (node : NodeObj.t)
    : StoredNode :=
  {| labels := remove_dups (node_labels node);
     properties := map_merge (NodeObj.attributes node) repoId entityId |}.

(** [node_creation_query]; it yields the one row of statistics. *)
Definition merge_nodes (nodeList : list NodeObj.t) (batchSize : nat)
    (repoId entityId : string) (st : Store) : Store * list IterateStats :=
  let '(st', stats) :=
    periodic_iterate (merge_node repoId entityId) batchSize nodeList st in
  (st', [stats]).

(** [MATCH (node1:NODE {node_id: edgeObject.sourceId})
     MATCH (node2:NODE {node_id: edgeObject.targetId})]: one row for each
    pair of a matching source and a matching target. The parameter
    [$entityId] does not occur in the pattern. *)
Definition edge_rows (edgeObject : EdgeObj.t) (st : Store) : list (nat * nat) :=
  node1 ← match_nodes ["NODE"]
            {["node_id" := VStr (EdgeObj.sourceId edgeObject)]} st;
  node2 ← match_nodes ["NODE"]
            {["node_id" := VStr (EdgeObj.targetId edgeObject)]} st;
  [(node1, node2)].

(** The calls [apoc.merge.relationship(node1, type, identProps, {}, node2,
    {})], one for each row. *)
Definition merge_rows (ty : string) (identProps : gmap string value)
    (rows : list (nat * nat)) (st : Store) : Store :=
  foldl (fun st row => apoc_merge_relationship row.1 ty identProps row.2 st)
        st rows.

(** [{scopeText: edgeObject.scopeText}] *)
Definition edge_key (edgeObject : EdgeObj.t) : gmap string value :=
  {["scopeText" := VStr (EdgeObj.scopeText edgeObject)]}.

(** The inner statement of [edge_creation_query], for one [edgeObject]. *)
Definition merge_edge (edgeObject : EdgeObj.t) (st : Store) : Store :=
  merge_rows (EdgeObj.type edgeObject) (edge_key edgeObject)
    (edge_rows edgeObject st) st.

(** [edge_creation_query] *)
Definition merge_edges (edgesList : list EdgeObj.t) (batchSize : nat)
    (entityId : string) (st : Store) : Store * list IterateStats :=
  let '(st', stats) := periodic_iterate merge_edge batchSize edgesList st in
  (st', [stats]).

(** [MATCH (n) WHERE n.node_id = $node_id RETURN n]; [result.data()] gives
    the property map of each [n]. *)
Definition node_by_id (node_id : string) (st : Store)
    : list (gmap string value) :=
  properties <$>
    filter (fun n => properties n !! "node_id" = Some (VStr node_id)) (nodes st).

(** A row of the neighbour query. *)
Record NeighborRow := {
  relationship_type : string;
  node_id : option value;
  node_name : option value;
  node_type : list string
}.

(** [MATCH (p {node_id: $node_id})-[r]->(p2)
     RETURN type(r), p2.node_id, p2.name, labels(p2)].
    A null parameter equals no property. *)
Definition neighbors (node_id : option value) (st : Store)
    : list NeighborRow :=
  match node_id with
  | None => []
  | Some v =>
      r ← rels st;
      match nodes st !! start_node r, nodes st !! end_node r with
      | Some p, Some p2 =>
          if decide (properties p !! "node_id" = Some v)
          then [ {| relationship_type := rel_type r;
                    node_id := properties p2 !! "node_id";
                    node_name := properties p2 !! "name";
                    node_type := labels p2 |} ]
          else []
      | _, _ => []
      end
  end.

(** A row of the full-text query (the score is returned and never read). *)
Record FulltextRow := {
  ft_text : option value;
  ft_node_id : option value;
  ft_name : option value;
  ft_node_path : option value;
  ft_start_line : option value;
  ft_end_line : option value
}.

Definition fulltext_row (node : StoredNode) : FulltextRow :=
  {| ft_text := properties node !! "text";
     ft_node_id := properties node !! "node_id";
     ft_name := properties node !! "name";
     ft_node_path := properties node !! "node_path";
     ft_start_line := properties node !! "start_line";
     ft_end_line := properties node !! "end_line" |}.

(** [CALL db.index.fulltext.queryNodes("functionNames", $formatted_query)
     YIELD node, score WHERE node.repoId = $repoId RETURN ..].
    [queryNodes] is the index: the hits for a query text, best score first. *)
Definition fulltext (queryNodes : Store → string → list StoredNode)
    (formatted_query repoId : string) (st : Store) : list FulltextRow :=
  fulltext_row <$>
    filter (fun node => properties node !! "repoId" = Some (VStr repoId))
           (queryNodes st formatted_query).

End Cypher.

(** ** Sessions: the store and the log of what was run *)

Module Session.
Import Graph.

(** The statements of the source, with their parameters. *)
Inductive Statement :=
| CreateFulltextIndex
| CreateNodeIdIndex
| CreateEntityIdIndex
| MergeNodes (nodeList : list NodeObj.t) (batchSize : nat)
    (repoId entityId : string)
| MergeEdges (edgesList : list EdgeObj.t) (batchSize : nat)
    (entityId : string)
| MatchNodeById (node_id : string)
| FulltextQuery (formatted_query repoId : string)
| MatchNeighbors (node_id : option value).

(** The exceptions [__init__] can end with: the one its loop catches, the
    one a missing [self.driver] gives, and any other the driver raises. *)
Inductive Exn :=
| ServiceUnavailable
| AttributeError
| OtherError (name : string).

Inductive Event :=
| Connect (attempt : nat)
| Sleep (seconds : nat)
| Run (stmt : Statement)
| Info (msg : string)
| Print (record : IterateStats).

Record State := {
  db : Store;
  log : list Event
}.

(** The attempts to get a driver among the events of a trace. *)
Definition is_connect (e : Event) : bool :=
  match e with
  | Connect _ => true
  | _ => false
  end.

Definition connects (trace : list Event) : nat :=
  List.length (List.filter is_connect trace).

Definition M (A : Type) : Type := State → A * State.

Definition ret {A} (a : A) : M A := fun s => (a, s).

Definition bind {A B} (m : M A) (k : A → M B) : M B :=
  fun s => let '(a, s') := m s in k a s'.

Definition emit (e : Event) : M unit :=
  fun s => (tt, {| db := db s; log := log s ++ [e] |}).

(** [session.run(..)] and [tx.run(..)]: the statement is logged and takes
    effect on the store. *)
Definition run {R} (stmt : Statement) (sem : Store → Store * R) : M R :=
  fun s => let '(st', r) := sem (db s) in
           (r, {| db := st'; log := log s ++ [Run stmt] |}).

(** A statement that changes no data. *)
Definition query {R} (stmt : Statement) (sem : Store → R) : M R :=
  run stmt (fun st => (st, sem st)).

(** [session.run(..)] of a statement that creates an index: it changes no
    data and may raise. The statement is logged as sent, and [outcome] is
    the exception that opening the session or running it raises, if any. *)
Definition run_schema (stmt : Statement) (outcome : option Exn)
    : M (option Exn) :=
  fun s => (outcome, {| db := db s; log := log s ++ [Run stmt] |}).

(** The value and the final state of a computation. *)
Definition eval {A} (m : M A) (s : State) : A := (m s).1.
Definition exec {A} (m : M A) (s : State) : State := (m s).2.

End Session.

#[global] Instance session_ret : MRet Session.M := @Session.ret.
#[global] Instance session_bind : MBind Session.M :=
  fun A B k m => Session.bind m k.

(** ** [class Neo4jManager] *)

Module Neo4jManager.
Import Graph Session.

(** The attributes of an instance; [self.driver] is the session state. *)
Record t := {
  repo_id : string;
  entity_id : string
}.

(** How the loop of [__init__] is left. *)
Inductive LoopExit :=
| Broke
| Exhausted
| Raised (e : Exn).

Section Connector.

(** [GraphDatabase.driver(..)] at each attempt: [None] when it returns a
    driver, [Some e] when it raises [e]. *)
Variable driver : nat → option Exn.

(** What the database does with a statement that creates an index: [None]
    when it is run, [Some e] when the session or the statement raises [e]
    (an unavailable server shows here when the driver connects lazily). *)
Variable schema : Statement → option Exn.

(** The three methods return nothing; [Some e] stands for [e] raised. *)
Definition create_function_name_index : M (option Exn) :=
  run_schema CreateFulltextIndex (schema CreateFulltextIndex).

Definition create_node_id_index : M (option Exn) :=
  run_schema CreateNodeIdIndex (schema CreateNodeIdIndex).

Definition create_entityId_index : M (option Exn) :=
  run_schema CreateEntityIdIndex (schema CreateEntityIdIndex).

(** The three calls in their order; an exception ends the method. *)
Definition create_indexes_and_constraints : M (option Exn) :=
  raised ← create_function_name_index;
  match raised with
  | Some e => mret (Some e)
  | None =>
      raised ← create_node_id_index;
      match raised with
      | Some e => mret (Some e)
      | None => create_entityId_index
      end
  end.

Definition retries : nat := 3.

(** [for attempt in range(retries): try: .. break
     except exceptions.ServiceUnavailable as e: ..] *)
Fixpoint connect_loop (attempts : list nat) : M LoopExit :=
  match attempts with
  | [] => mret Exhausted
  | attempt :: rest =>
      emit (Connect attempt) ;;
      match driver attempt with
      | None => mret Broke
      | Some ServiceUnavailable =>
          if attempt <? retries - 1
          then emit (Sleep (2 ^ attempt)) ;; connect_loop rest
          else mret (Raised ServiceUnavailable)
      | Some e => mret (Raised e)
      end
  end.

(** [Neo4jManager.__init__]: [inl e] when [e] is raised. When the loop ends
    with no driver set, [self.driver] is missing at the first use. The call
    [self.create_indexes_and_constraints()] stands after the loop, outside
    its [try]: what it raises reaches the caller. *)
Definition __init__ (repo_id entity_id : option string) : M (Exn + t) :=
  exit ← connect_loop (seq 0 retries);
  match exit with
  | Raised e => mret (inl e)
  | Exhausted => mret (inl AttributeError)
  | Broke =>
      raised ← create_indexes_and_constraints;
      match raised with
      | Some e => mret (inl e)
      | None =>
          mret (inr {| repo_id := default "default_repo" repo_id;
                       entity_id := default "default_user" entity_id |})
      end
  end.

End Connector.

(** [for record in result: logger.info(..); print(record)] *)
Definition _create_nodes_txn (nodeList : list NodeObj.t) (batch_size : nat)
    (repoId entityId : string) : M unit :=
  result ← run (MergeNodes nodeList batch_size repoId entityId)
              (Cypher.merge_nodes nodeList batch_size repoId entityId);
  foldl (fun acc record =>
           acc ;;
           emit (Info ("Created " +:+ pretty (total record) +:+ " nodes")) ;;
           emit (Print record))
        (mret tt) result.

Definition _create_edges_txn (edgesList : list EdgeObj.t) (batch_size : nat)
    (entityId : string) : M unit :=
  result ← run (MergeEdges edgesList batch_size entityId)
              (Cypher.merge_edges edgesList batch_size entityId);
  foldl (fun acc record =>
           acc ;;
           emit (Info ("Created " +:+ pretty (total record) +:+ " edges")))
        (mret tt) result.

Definition create_nodes (self : t) (nodeList : list NodeObj.t) : M unit :=
  _create_nodes_txn nodeList 100 (repo_id self) (entity_id self).

Definition create_edges (self : t) (edgesList : list EdgeObj.t) : M unit :=
  _create_edges_txn edgesList 100 (entity_id self).

Definition save_graph (self : t) (nodes : list NodeObj.t)
    (edges : list EdgeObj.t) : M unit :=
  create_nodes self nodes ;;
  create_edges self edges.

(** [NeighborResult(node_id=record["node_id"], name=record["node_name"],
    node_type=record["node_type"],
    relationship_type=record["relationship_type"])] *)
Definition neighbor_of_record (record : Cypher.NeighborRow)
    : NeighborResult.t :=
  {| NeighborResult.node_id := Cypher.node_id record;
     NeighborResult.name := Cypher.node_name record;
     NeighborResult.node_type := Cypher.node_type record;
     NeighborResult.relationship_type := Cypher.relationship_type record |}.

Definition get_1_hop_neighbors_and_relations (self : t)
    (node_id : option value) : M (list NeighborResult.t) :=
  data ← query (MatchNeighbors node_id) (Cypher.neighbors node_id);
  mret (neighbor_of_record <$> data).

(** [NodeResult(node_id=node_data.get("node_id"), ..)] *)
Definition node_of_data (node_data : gmap string value) : NodeResult.t :=
  {| NodeResult.node_id := node_data !! "node_id";
     NodeResult.name := node_data !! "name";
     NodeResult.node_path := node_data !! "node_path";
     NodeResult.start_line := node_data !! "start_line";
     NodeResult.end_line := node_data !! "end_line";
     NodeResult.text := node_data !! "text" |}.

Definition get_node_by_id (self : t) (node_id : string)
    : M (option NodeResult.t * list NeighborResult.t) :=
  records ← query (MatchNodeById node_id) (Cypher.node_by_id node_id);
  match records with
  | [] => mret (None, [])
  | node_data :: _ =>
      neighbors ← get_1_hop_neighbors_and_relations self (Some (VStr node_id));
      mret (Some (node_of_data node_data), neighbors)
  end.

Definition _format_query (self : t) (query : string) : string :=
  Escaper._format_query query.

(** [NodeResult(node_id=first_result["node.node_id"], ..)] *)
Definition node_of_row (first_result : Cypher.FulltextRow) : NodeResult.t :=
  {| NodeResult.node_id := Cypher.ft_node_id first_result;
     NodeResult.name := Cypher.ft_name first_result;
     NodeResult.node_path := Cypher.ft_node_path first_result;
     NodeResult.start_line := Cypher.ft_start_line first_result;
     NodeResult.end_line := Cypher.ft_end_line first_result;
     NodeResult.text := Cypher.ft_text first_result |}.

Section Retriever.

(** The full-text index [functionNames]. *)
Variable queryNodes : Store → string → list StoredNode.

(** [session.run(node_query, ..)] followed by [result.peek()]. *)
Definition run_node_query (formatted_query repoId : string)
    : M (option Cypher.FulltextRow) :=
  result ← query (FulltextQuery formatted_query repoId)
              (Cypher.fulltext queryNodes formatted_query repoId);
  mret (head result).

Definition search_nodes_by_text (self : t) (query : string)
    : M (option NodeResult.t * list NeighborResult.t) :=
  let formatted_query := _format_query self query in
  first_result ← run_node_query ("*" +:+ formatted_query +:+ "*")
                   (repo_id self);
  first_result ← match first_result with
                 | None => run_node_query formatted_query (repo_id self)
                 | Some _ => mret first_result
                 end;
  match first_result with
  | None => mret (None, [])
  | Some first_result =>
      neighbors ← get_1_hop_neighbors_and_relations self
                    (Cypher.ft_node_id first_result);
      mret (Some (node_of_row first_result), neighbors)
  end.

End Retriever.

End Neo4jManager.

(** ** [class GraphQueryTool] *)

Module GraphQueryTool.
Import Graph Session.

(** The Python objects the two tools handle. *)
#[warnings="-register-all"]
Inductive PyObj :=
| PyNone
| PyStr (s : string)
| PyTuple (items : list PyObj)
| PyList (items : list PyObj)
| PyNodeResult (r : NodeResult.t)
| PyNeighborResult (r : NeighborResult.t).

(** Truth value testing: [None], the empty string and the empty tuple and
    list are false; an instance of a dataclass that defines neither
    [__bool__] nor [__len__] is true. *)
Definition truthy (o : PyObj) : bool :=
  match o with
  | PyNone => false
  | PyStr s => negb (bool_decide (s = EmptyString))
  | PyTuple items | PyList items => negb (bool_decide (items = []))
  | PyNodeResult _ | PyNeighborResult _ => true
  end.

Definition py_optional (o : option NodeResult.t) : PyObj :=
  match o with
  | None => PyNone
  | Some r => PyNodeResult r
  end.

(** The pair a read of the manager returns, as the tuple object it is. *)
Definition py_pair (p : option NodeResult.t * list NeighborResult.t) : PyObj :=
  PyTuple [py_optional p.1; PyList (PyNeighborResult <$> p.2)].

Definition no_code_found : string := "No code found for the given query".

Definition get_node_by_id (db_manager : Neo4jManager.t) (query : string)
    : M PyObj :=
  result ← Neo4jManager.get_node_by_id db_manager query;
  let result := py_pair result in
  if negb (truthy result) then mret (PyStr no_code_found)
  else
    let result := if truthy result then result else PyStr "No result found" in
    mret result.

Section Rendering.

Variable queryNodes : Store → string → list StoredNode.

(** [str] of [code.text] and of the list [neighbours] in the f-string;
    [code] is a [NodeResult] wherever [code.text] is read. *)
Variable str_text : option value → string.
Variable str_neighbours : list NeighborResult.t → string.

Definition newline : string := String (ascii_of_nat 10) EmptyString.

Definition search_nodes_by_text (db_manager : Neo4jManager.t) (query : string)
    : M PyObj :=
  result ← Neo4jManager.search_nodes_by_text queryNodes db_manager query;
  let '(code, neighbours) := result in
  if negb (truthy (py_optional code)) then mret (PyStr no_code_found)
  else
    mret (PyStr ("current node code:" +:+ newline +:+ " "
                 +:+ str_text (code ≫= NodeResult.text) +:+ " "
                 +:+ newline +:+ newline
                 +:+ " current node neighbours: "
                 +:+ str_neighbours neighbours)).

End Rendering.

End GraphQueryTool.

(** ** Sample inputs *)

Module Sample.
Import Graph Session.

Definition s0 : State := {| db := Graph.empty; log := [] |}.

Definition tenant1 : Neo4jManager.t :=
  {| Neo4jManager.repo_id := "r1"; Neo4jManager.entity_id := "e1" |}.

Definition tenant2 : Neo4jManager.t :=
  {| Neo4jManager.repo_id := "r2"; Neo4jManager.entity_id := "e2" |}.

Definition function_node (id txt : string) : NodeObj.t :=
  {| NodeObj.extra_labels := [];
     NodeObj.type := "FUNCTION";
     NodeObj.attributes :=
       <["node_id" := VStr id]> (<["text" := VStr txt]> ∅) |}.

Definition calls (src tgt : string) : EdgeObj.t :=
  {| EdgeObj.sourceId := src; EdgeObj.targetId := tgt;
     EdgeObj.type := "CALLS"; EdgeObj.scopeText := "call" |}.

(** An index that answers a query text with the nodes that have it as their
    [node_id]: it has no answer for a text between wildcards. *)
Definition exact_index (st : Store) (text : string) : list StoredNode :=
  filter (fun n => properties n !! "node_id" = Some (VStr text)) (nodes st).

(** The driver is unavailable at the first [k] attempts. *)
Definition unavailable_for (k : nat) (attempt : nat) : option Exn :=
  if bool_decide (attempt < k) then Some ServiceUnavailable else None.

End Sample.

(** ** Well-formed stores *)

Module Invariant.
Import Graph.

(** The endpoints of every relationship are stored nodes: a database holds
    no relationship without its two nodes. *)
Definition wf (st : Store) : Prop :=
  Forall (fun r => start_node r < List.length (nodes st)
                   ∧ end_node r < List.length (nodes st))
         (rels st).

#[global] Instance wf_dec st : Decision (wf st).
Proof. unfold wf. apply _. Defined.

(** The relationship [r] starts at a node whose [node_id] is [v]. *)
Definition leaves (v : value) (st : Store) (r : StoredRel) : Prop :=
  match nodes st !! start_node r with
  | Some p => properties p !! "node_id" = Some v
  | None => False
  end.

#[global] Instance leaves_dec v st r : Decision (leaves v st r).
Proof. unfold leaves. destruct (nodes st !! start_node r); apply _. Defined.

End Invariant.

(** ** [Neo4jManager.detatch_delete_nodes_with_path] *)

Module Deletion.
Import Graph Session.

(** The pattern [(n {path: $path})]. *)
Definition has_path (path : string) (n : StoredNode) : Prop :=
  properties n !! "path" = Some (VStr path).

#[global] Instance has_path_dec path n : Decision (has_path path n).
Proof. unfold has_path. apply _. Defined.

Definition kept (path : string) (n : StoredNode) : Prop := ¬ has_path path n.

#[global] Instance kept_dec path n : Decision (kept path n).
Proof. unfold kept. apply _. Defined.

(** The node at position [i] is stored and is not deleted. *)
Definition stays (path : string) (st : Store) (i : nat) : Prop :=
  match nodes st !! i with
  | Some n => kept path n
  | None => False
  end.

#[global] Instance stays_dec path st i : Decision (stays path st i).
Proof. unfold stays. destruct (nodes st !! i); apply _. Defined.

(** The position of the node [i] once the deleted nodes before it are gone. *)
Definition new_position (path : string) (st : Store) (i : nat) : nat :=
  List.length (filter (kept path) (take i (nodes st))).

(** [MATCH (n {path: $path}) DETACH DELETE n]: the matching nodes go, with
    every relationship that starts or ends at one of them. *)
Definition detach_delete (path : string) (st : Store) : Store :=
  {| nodes := filter (kept path) (nodes st);
     rels := omap (fun r =>
                     if decide (stays path st (start_node r)
                                ∧ stays path st (end_node r))
                     then Some {| start_node :=
                                    new_position path st (start_node r);
                                  rel_type := rel_type r;
                                  rel_properties := rel_properties r;
                                  end_node :=
                                    new_position path st (end_node r) |}
                     else None)
                  (rels st) |}.

(** The method: the statement returns no row, so [result.data()] is the
    empty list. It takes effect on the store; the log of a session keeps
    the statements of the connector, the writer and the readers. *)
Definition detatch_delete_nodes_with_path (self : Neo4jManager.t)
    (path : string) : M (list (gmap string value)) :=
  fun s => ([], {| db := detach_delete path (db s); log := log s |}).

End Deletion.

(** ** Measures on traces and on texts *)

Module Trace.
Import Session.



End Trace.

Module Text.

(** [old in s]: [old] occurs in [s] at some position. *)
Fixpoint occurs (old s : string) : bool :=
  String.prefix old s
  || match s with
     | EmptyString => false
     | String _ s' => occurs old s'
     end.

End Text.

(** ** Sample files *)

Module Files.
Import Graph Session.

Definition file_node (id path : string) : NodeObj.t :=
  {| NodeObj.extra_labels := [];
     NodeObj.type := "FILE";
     NodeObj.attributes :=
       <["node_id" := VStr id]> (<["path" := VStr path]> ∅) |}.

Definition imports (src tgt : string) : EdgeObj.t :=
  {| EdgeObj.sourceId := src; EdgeObj.targetId := tgt;
     EdgeObj.type := "IMPORTS"; EdgeObj.scopeText := "import" |}.

(** Three files, the second and the third under the same path, and the
    imports between them. *)
Definition three_files : State :=
  exec (Neo4jManager.save_graph Sample.tenant1
          [file_node "a" "src/a.py"; file_node "b" "src/b.py";
           file_node "c" "src/b.py"]
          [imports "a" "b"; imports "b" "c"; imports "a" "a"])
       Sample.s0.

End Files.

(** ** What the specification counts and expects *)

Module Keys.
Import Graph.

(** The node has [id] as its [node_id]. *)
Definition has_id (id : string) (n : StoredNode) : Prop :=
  properties n !! "node_id" = Some (VStr id).

#[global] Instance has_id_dec id n : Decision (has_id id n).
Proof. unfold has_id. apply _. Defined.

(** The node at position [i] is stored and has [id] as its [node_id]. *)
Definition at_id (st : Store) (id : string) (i : nat) : Prop :=
  match nodes st !! i with
  | Some n => has_id id n
  | None => False
  end.

#[global] Instance at_id_dec st id i : Decision (at_id st id i).
Proof. unfold at_id. destruct (nodes st !! i); apply _. Defined.

(** The relationship has the key of the edge as the specification gives
    it, (source, target, type, scopeText): it has the type and the scope
    text of the edge, starts at a node whose [node_id] is the [sourceId]
    and ends at one whose [node_id] is the [targetId]. *)
Definition has_key (e : EdgeObj.t) (st : Store) (r : StoredRel) : Prop :=
  rel_type r = EdgeObj.type e
  ∧ rel_properties r !! "scopeText" = Some (VStr (EdgeObj.scopeText e))
  ∧ at_id st (EdgeObj.sourceId e) (start_node r)
  ∧ at_id st (EdgeObj.targetId e) (end_node r).

#[global] Instance has_key_dec e st r : Decision (has_key e st r).
Proof. unfold has_key. apply _. Defined.

(** The stored relationships with the key of the edge. *)
Definition count_key (e : EdgeObj.t) (st : Store) : nat :=
  List.length (filter (has_key e st) (rels st)).

End Keys.

Module Expected.
Import Graph.


End Expected.

(** ** Theorems *)

(** C1: on the input [a+b*c] the escaper of the source does not return
    [a\+b\*c]. Its passes run one after the other, and the pass for the
    backslash (the 18th entry) comes after the passes for [+] and [*], so it
    escapes the markers those passes inserted: the result has two
    backslashes before each special character. The single scan of the
    specification gives the expected text. *)
Theorem format_query_reescapes_markers :
  Escaper._format_query "a+b*c" = "a\\+b\\*c"
  /\ Escaper._format_query "a+b*c" <> "a\+b\*c"
  /\ Escaper.escape_single_scan "a+b*c" = "a\+b\*c".
Proof.
  split; [ reflexivity | split; [ discriminate | reflexivity ] ].
Qed.

(** ** Batches *)

Section Batches.
Context {A : Type}.

Lemma chunks_fuel_concat (n : nat) :
  0 < n → ∀ fuel (l : list A),
    List.length l ≤ fuel → concat (Graph.chunks_fuel fuel n l) = l.
Proof.
  intros Hn fuel. induction fuel as [|fuel IH]; intros l Hl.
  - destruct l; [reflexivity | simpl in Hl; lia].
  - destruct l as [|x l]; [reflexivity|].
    cbn [Graph.chunks_fuel concat]. rewrite IH.
    + apply take_drop.
    + rewrite length_drop. simpl in *. lia.
Qed.

Lemma chunks_concat (n : nat) (l : list A) :
  0 < n → concat (Graph.chunks n l) = l.
Proof. intros Hn. apply chunks_fuel_concat; [exact Hn | lia]. Qed.

Lemma foldl_concat {S} (f : S → A → S) (ls : list (list A)) : ∀ st,
  foldl (fun st batch => foldl f st batch) st ls = foldl f st (concat ls).
Proof.
  induction ls as [|b ls IH]; intros st; [reflexivity|].
  simpl. rewrite foldl_app. apply IH.
Qed.

(** With a positive batch size the batches do not show in the store: the
    items take effect one after the other. *)
Lemma periodic_iterate_store (step : A → Graph.Store → Graph.Store)
    (batchSize : nat) (items : list A) (st : Graph.Store) :
  0 < batchSize →
  (Graph.periodic_iterate step batchSize items st).1
  = foldl (fun st x => step x st) st items.
Proof.
  intros Hn. unfold Graph.periodic_iterate. cbn [fst].
  rewrite (foldl_concat (fun st x => step x st)).
  by rewrite chunks_concat.
Qed.

Lemma periodic_iterate_total (step : A → Graph.Store → Graph.Store)
    (batchSize : nat) (items : list A) (st : Graph.Store) :
  Graph.total (Graph.periodic_iterate step batchSize items st).2
  = List.length items.
Proof. reflexivity. Qed.

End Batches.

(** ** The store after a write *)

Section Writer.
Import Graph Session.

Lemma db_create_nodes (self : Neo4jManager.t) (nodeList : list NodeObj.t)
    (s : State) :
  db (exec (Neo4jManager.create_nodes self nodeList) s)
  = foldl (fun st node =>
             Cypher.merge_node (Neo4jManager.repo_id self)
               (Neo4jManager.entity_id self) node st)
          (db s) nodeList.
Proof.
  rewrite <- (periodic_iterate_store _ 100) by lia.
  unfold exec, Neo4jManager.create_nodes, Neo4jManager._create_nodes_txn.
  unfold mbind, session_bind, Session.bind, run, Cypher.merge_nodes.
  destruct (periodic_iterate _ _ _ _) as [st' stats]. reflexivity.
Qed.

Lemma db_create_edges (self : Neo4jManager.t) (edgesList : list EdgeObj.t)
    (s : State) :
  db (exec (Neo4jManager.create_edges self edgesList) s)
  = foldl (fun st e => Cypher.merge_edge e st) (db s) edgesList.
Proof.
  rewrite <- (periodic_iterate_store _ 100) by lia.
  unfold exec, Neo4jManager.create_edges, Neo4jManager._create_edges_txn.
  unfold mbind, session_bind, Session.bind, run, Cypher.merge_edges.
  destruct (periodic_iterate _ _ _ _) as [st' stats]. reflexivity.
Qed.

(** The edge write logs its statement and then the report of the one row. *)
Lemma log_create_edges (self : Neo4jManager.t) (edgesList : list EdgeObj.t)
    (s : State) :
  log (exec (Neo4jManager.create_edges self edgesList) s)
  = log s
    ++ [Run (MergeEdges edgesList 100 (Neo4jManager.entity_id self))]
    ++ [Info ("Created " +:+ pretty (List.length edgesList) +:+ " edges")].
Proof.
  unfold exec, Neo4jManager.create_edges, Neo4jManager._create_edges_txn.
  unfold mbind, session_bind, Session.bind, run, Cypher.merge_edges.
  pose proof (periodic_iterate_total Cypher.merge_edge 100 edgesList (db s))
    as Htotal.
  destruct (periodic_iterate _ _ _ _) as [st' stats].
  cbn in Htotal |- *. rewrite Htotal. by rewrite <- app_assoc.
Qed.

Lemma exec_bind {A B} (m : M A) (k : A → M B) (s : State) :
  exec (m ≫= k) s = exec (k (eval m s)) (exec m s).
Proof.
  unfold exec, eval, mbind, session_bind, Session.bind.
  by destruct (m s).
Qed.

Lemma db_save_graph (self : Neo4jManager.t) (nodes : list NodeObj.t)
    (edges : list EdgeObj.t) (s : State) :
  db (exec (Neo4jManager.save_graph self nodes edges) s)
  = foldl (fun st e => Cypher.merge_edge e st)
      (foldl (fun st node =>
                Cypher.merge_node (Neo4jManager.repo_id self)
                  (Neo4jManager.entity_id self) node st)
             (db s) nodes)
      edges.
Proof.
  unfold Neo4jManager.save_graph. rewrite exec_bind.
  by rewrite db_create_edges, db_create_nodes.
Qed.

End Writer.

(** ** Merging a node *)

Section MergeNode.
Import Graph.

Lemma length_positions (P : StoredNode → Prop) `{!∀ n, Decision (P n)}
    (l : list StoredNode) : ∀ i,
  List.length (positions P i l) = List.length (filter P l).
Proof.
  induction l as [|n l IH]; intros i; [reflexivity|].
  cbn [positions]. rewrite filter_cons.
  destruct (decide (P n)); simpl; by rewrite IH.
Qed.

Lemma positions_nil (P : StoredNode → Prop) `{!∀ n, Decision (P n)}
    (l : list StoredNode) (i : nat) :
  positions P i l = [] ↔ Forall (fun n => ¬ P n) l.
Proof.
  revert i. induction l as [|n l IH]; intros i.
  - split; [constructor | reflexivity].
  - cbn [positions]. rewrite Forall_cons. destruct (decide (P n)).
    + split; [discriminate | tauto].
    + rewrite IH. tauto.
Qed.

Lemma created_node_matches (ls : list string) (ps : gmap string value) :
  node_matches ls ps {| labels := remove_dups ls; properties := ps |}.
Proof.
  split; [|reflexivity]. cbn [labels].
  intros l Hl. by apply elem_of_remove_dups.
Qed.

Lemma apoc_merge_node_rels ls ps st :
  rels (apoc_merge_node ls ps st) = rels st.
Proof. unfold apoc_merge_node. by case_decide. Qed.

Lemma apoc_merge_node_fresh ls ps st :
  Forall (fun n => ¬ node_matches ls ps n) (nodes st) →
  nodes (apoc_merge_node ls ps st)
  = nodes st ++ [ {| labels := remove_dups ls; properties := ps |} ].
Proof.
  intros Hnone. unfold apoc_merge_node. case_decide as Hex; [|reflexivity].
  apply Exists_exists in Hex as (n & Hin & Hn).
  rewrite Forall_forall in Hnone. by destruct (Hnone n Hin).
Qed.

Lemma apoc_merge_node_matched ls ps st :
  Exists (node_matches ls ps) (nodes st) → apoc_merge_node ls ps st = st.
Proof. intros Hex. unfold apoc_merge_node. by case_decide. Qed.

Lemma apoc_merge_node_prefix ls ps st :
  nodes st `prefix_of` nodes (apoc_merge_node ls ps st).
Proof.
  unfold apoc_merge_node. case_decide; [reflexivity|].
  by apply prefix_app_r.
Qed.

Lemma apoc_merge_node_exists ls ps st :
  Exists (node_matches ls ps) (nodes (apoc_merge_node ls ps st)).
Proof.
  unfold apoc_merge_node. case_decide as Hex; [exact Hex|].
  cbn [nodes]. apply Exists_app. right.
  apply Exists_cons_hd, created_node_matches.
Qed.

Lemma apoc_merge_node_idem ls ps st :
  apoc_merge_node ls ps (apoc_merge_node ls ps st) = apoc_merge_node ls ps st.
Proof. apply apoc_merge_node_matched, apoc_merge_node_exists. Qed.

Lemma apoc_merge_node_count ls ps st :
  List.length (match_nodes ls ps (apoc_merge_node ls ps st))
  = Nat.max 1 (List.length (match_nodes ls ps st)).
Proof.
  unfold match_nodes. rewrite !length_positions.
  unfold apoc_merge_node. case_decide as Hex.
  - apply Exists_exists in Hex as (n & Hin & Hn).
    assert (n ∈ filter (node_matches ls ps) (nodes st)) as Hf
      by (by apply list_elem_of_filter).
    destruct (filter _ (nodes st)); [by apply elem_of_nil in Hf | simpl; lia].
  - cbn [nodes]. rewrite filter_app, length_app.
    rewrite filter_cons_True by apply created_node_matches.
    apply not_Exists_Forall in Hex; [|apply _].
    replace (filter (node_matches ls ps) (nodes st)) with (@nil StoredNode).
    + reflexivity.
    + symmetry. apply (proj2 (positions_nil (node_matches ls ps) _ 0)) in Hex.
      apply nil_length_inv. rewrite <- (length_positions _ _ 0).
      by rewrite Hex.
Qed.

End MergeNode.

(** ** Merging relationships *)

Section MergeRelationship.
Import Graph.

Variable ty : string.
Variable ps : gmap string value.

Local Abbreviation count_rels := (Graph.count_rels ty ps).
Local Abbreviation merge_rows := (Cypher.merge_rows ty ps).

Lemma count_rels_pos a b st :
  Exists (rel_matches a ty ps b) (rels st) ↔ 0 < count_rels a b st.
Proof.
  unfold Graph.count_rels. split.
  - intros (r & Hin & Hr)%Exists_exists.
    assert (r ∈ filter (rel_matches a ty ps b) (rels st)) as Hf
      by (by apply list_elem_of_filter).
    destruct (filter _ (rels st)); [by apply elem_of_nil in Hf | simpl; lia].
  - intros Hpos. destruct (filter _ (rels st)) as [|r l] eqn:Hf;
      [simpl in Hpos; lia|].
    assert (r ∈ filter (rel_matches a ty ps b) (rels st)) as Hin
      by (rewrite Hf; left).
    apply list_elem_of_filter in Hin as [Hr Hin].
    apply Exists_exists. eauto.
Qed.

Lemma merge_relationship_nodes a b st :
  nodes (apoc_merge_relationship a ty ps b st) = nodes st.
Proof. unfold apoc_merge_relationship. by case_decide. Qed.

Lemma merge_relationship_count_same a b st :
  count_rels a b (apoc_merge_relationship a ty ps b st)
  = Nat.max 1 (count_rels a b st).
Proof.
  unfold apoc_merge_relationship. case_decide as Hex.
  - apply count_rels_pos in Hex. lia.
  - assert (count_rels a b st = 0) as Hz.
    { destruct (count_rels a b st) eqn:Hc; [reflexivity|].
      destruct Hex. apply count_rels_pos. lia. }
    rewrite Hz. unfold Graph.count_rels in *. cbn [rels].
    rewrite filter_app, length_app, Hz.
    rewrite filter_cons_True; [reflexivity|].
    by repeat split.
Qed.

Lemma merge_relationship_count_other a b a' b' st :
  (a', b') ≠ (a, b) →
  count_rels a b (apoc_merge_relationship a' ty ps b' st) = count_rels a b st.
Proof.
  intros Hne. unfold apoc_merge_relationship. case_decide; [reflexivity|].
  unfold Graph.count_rels. cbn [rels]. rewrite filter_app, length_app.
  rewrite filter_cons_False; [simpl; lia|].
  intros (Ha & _ & _ & Hb). cbn in Ha, Hb. congruence.
Qed.

Lemma merge_rows_nodes rows : ∀ st, nodes (merge_rows rows st) = nodes st.
Proof.
  induction rows as [|row rows IH]; intros st; [reflexivity|].
  cbn. unfold Cypher.merge_rows in IH. by rewrite IH, merge_relationship_nodes.
Qed.

(** After the rows of an edge are merged, the pair of a row holds one
    relationship with the key if it held none, and as many as before
    otherwise; the other pairs hold what they held. *)
Lemma merge_rows_count a b rows : ∀ st,
  count_rels a b (merge_rows rows st)
  = if decide ((a, b) ∈ rows) then Nat.max 1 (count_rels a b st)
    else count_rels a b st.
Proof.
  induction rows as [|[a' b'] rows IH]; intros st.
  - by rewrite decide_False by apply not_elem_of_nil.
  - cbn. unfold Cypher.merge_rows in IH. rewrite IH. cbn [fst snd].
    destruct (decide ((a', b') = (a, b))) as [[= -> ->]|Hne].
    + rewrite merge_relationship_count_same.
      rewrite (decide_True (P := (a, b) ∈ (a, b) :: rows)) by left.
      case_decide; lia.
    + rewrite merge_relationship_count_other by done.
      destruct (decide ((a, b) ∈ rows)) as [Hin|Hnin].
      * by rewrite decide_True by (by right).
      * rewrite decide_False; [reflexivity|].
        intros [?|?]%elem_of_cons; congruence.
Qed.

(** Rows whose relationship is already there change nothing. *)
Lemma merge_rows_fixed rows st :
  (∀ row, row ∈ rows → Exists (rel_matches row.1 ty ps row.2) (rels st)) →
  merge_rows rows st = st.
Proof.
  induction rows as [|row rows IH]; intros Hall; [reflexivity|].
  cbn. unfold apoc_merge_relationship.
  rewrite decide_True by (apply Hall; left).
  apply IH. intros row' Hin. apply Hall. by right.
Qed.

Lemma merge_rows_idem rows rows' st :
  rows' ⊆ rows →
  merge_rows rows' (merge_rows rows st) = merge_rows rows st.
Proof.
  intros Hsub. apply merge_rows_fixed. intros [a b] Hin. cbn [fst snd].
  apply count_rels_pos. rewrite merge_rows_count.
  rewrite decide_True by (by apply Hsub). lia.
Qed.

End MergeRelationship.

(** ** Writing edges *)

Section MergeEdge.
Import Graph.

Lemma edge_rows_nodes e st st' :
  nodes st = nodes st' → Cypher.edge_rows e st = Cypher.edge_rows e st'.
Proof.
  intros Hn. unfold Cypher.edge_rows, match_nodes. by rewrite Hn.
Qed.

Lemma merge_edge_nodes e st : nodes (Cypher.merge_edge e st) = nodes st.
Proof. apply merge_rows_nodes. Qed.

Lemma merge_edges_nodes es : ∀ st,
  nodes (foldl (fun st e => Cypher.merge_edge e st) st es) = nodes st.
Proof.
  induction es as [|e es IH]; intros st; [reflexivity|].
  cbn. by rewrite IH, merge_edge_nodes.
Qed.

Lemma merge_edge_idem e st :
  Cypher.merge_edge e (Cypher.merge_edge e st) = Cypher.merge_edge e st.
Proof.
  unfold Cypher.merge_edge at 1.
  rewrite (edge_rows_nodes e _ st) by apply merge_edge_nodes.
  by apply merge_rows_idem.
Qed.

(** No stored node has [id] as its [node_id]. *)
Lemma absent_no_match (id : string) (st : Store) :
  (∀ n, n ∈ nodes st → properties n !! "node_id" ≠ Some (VStr id)) →
  match_nodes ["NODE"] {["node_id" := VStr id]} st = [].
Proof.
  intros Habs. apply positions_nil, Forall_forall.
  intros n Hin [_ Hps]. apply (Habs n Hin).
  eapply lookup_weaken; [|exact Hps]. apply lookup_singleton_eq.
Qed.

Lemma edge_rows_absent e st :
  match_nodes ["NODE"] {["node_id" := VStr (EdgeObj.sourceId e)]} st = []
  ∨ match_nodes ["NODE"] {["node_id" := VStr (EdgeObj.targetId e)]} st = [] →
  Cypher.edge_rows e st = [].
Proof.
  unfold Cypher.edge_rows. intros [-> | ->]; [reflexivity|].
  induction (match_nodes _ _ st) as [|i l IH]; [reflexivity | exact IH].
Qed.

End MergeEdge.

(** ** The bulk writer *)

Section BulkWriter.
Import Graph Session.

(** A node of another partition is never the match of a merge: the merge key
    holds the two tags of the writing manager. *)
Lemma merge_key_is_partitioned ls attributes repoId entityId n :
  properties n !! "repoId" ≠ Some (VStr repoId)
  ∨ properties n !! "entityId" ≠ Some (VStr entityId) →
  ¬ node_matches ls (Cypher.map_merge attributes repoId entityId) n.
Proof.
  intros Hne [_ Hps]. unfold Cypher.map_merge in Hps.
  destruct Hne as [Hne|Hne]; apply Hne; (eapply lookup_weaken; [|exact Hps]).
  - apply lookup_insert_eq.
  - rewrite lookup_insert_ne by done. apply lookup_insert_eq.
Qed.

(** Every node the writer creates carries the two tags of its manager. *)
Lemma created_node_is_tagged repoId entityId node :
  properties (Cypher.created_node repoId entityId node) !! "repoId"
  = Some (VStr repoId)
  ∧ properties (Cypher.created_node repoId entityId node) !! "entityId"
    = Some (VStr entityId).
Proof.
  unfold Cypher.created_node, Cypher.map_merge. cbn [properties]. split.
  - apply lookup_insert_eq.
  - rewrite lookup_insert_ne by done. apply lookup_insert_eq.
Qed.

(** A property of the merge key that a stored node lacks, or holds with
    another value, keeps that node from matching. *)
Lemma changed_attribute_no_match ls ps n k v :
  ps !! k = Some v → properties n !! k ≠ Some v → ¬ node_matches ls ps n.
Proof.
  intros Hk Hne [_ Hps]. apply Hne. by eapply lookup_weaken.
Qed.

End BulkWriter.

(** C2 (as the code has it): a node is written to a store in which nothing
    matches it, and written again with the same manager and an attribute
    map in which some key holds a changed or a new value (and which no
    stored node matches either). The first node keeps its place, labels and
    attributes, and a second node with the new attribute map is created
    after it: the merge key is the label set with the whole tagged attribute
    map, and nothing is set on a match. *)
Theorem reingest_changed_attributes_adds_node
    (self : Neo4jManager.t) (s : Session.State) (N N' : NodeObj.t)
    (k : string) (v : Graph.value) :
  let repoId := Neo4jManager.repo_id self in
  let entityId := Neo4jManager.entity_id self in
  let key n := Cypher.map_merge (NodeObj.attributes n) repoId entityId in
  Forall (fun n => ¬ Graph.node_matches (Cypher.node_labels N) (key N) n)
         (Graph.nodes (Session.db s)) →
  Forall (fun n => ¬ Graph.node_matches (Cypher.node_labels N') (key N') n)
         (Graph.nodes (Session.db s)) →
  key N' !! k = Some v →
  key N !! k ≠ Some v →
  Graph.nodes
    (Session.db
       (Session.exec (Neo4jManager.save_graph self [N] [] ;;
                      Neo4jManager.save_graph self [N'] []) s))
  = Graph.nodes (Session.db s)
    ++ [Cypher.created_node repoId entityId N;
        Cypher.created_node repoId entityId N'].
Proof.
  intros repoId entityId key HN HN' Hk Hne.
  rewrite exec_bind, !db_save_graph. cbn [foldl].
  unfold Cypher.merge_node at 2. fold repoId entityId. fold (key N).
  pose proof (apoc_merge_node_fresh _ _ _ HN) as H1.
  unfold Cypher.merge_node. fold (key N').
  rewrite apoc_merge_node_fresh.
  - rewrite H1, <- app_assoc. reflexivity.
  - rewrite H1. apply Forall_app. split; [exact HN'|].
    apply Forall_singleton.
    apply (changed_attribute_no_match _ _ _ k v); [exact Hk | exact Hne].
Qed.

(** C5: a manager of the partition [(r1, e1)] writes the nodes [a] and [b]
    and the edge from [a] to [b] into a store where the partition
    [(r2, e2)] holds a node with the [node_id] [b]. The two nodes [b] stay
    apart, each with the tags of its partition, but the edge is attached to
    both: the match of an endpoint reads [node_id] and the label [NODE]
    alone, and the parameter [entityId] of the edge statement is unused. *)
Theorem edge_write_attaches_across_partitions :
  let s :=
    Session.exec
      (Neo4jManager.save_graph Sample.tenant2
         [Sample.function_node "b" "theirs"] [] ;;
       Neo4jManager.save_graph Sample.tenant1
         [Sample.function_node "a" "mine"; Sample.function_node "b" "mine"]
         [Sample.calls "a" "b"])
      Sample.s0 in
  Graph.nodes (Session.db s)
  = [Cypher.created_node "r2" "e2" (Sample.function_node "b" "theirs");
     Cypher.created_node "r1" "e1" (Sample.function_node "a" "mine");
     Cypher.created_node "r1" "e1" (Sample.function_node "b" "mine")]
  ∧ Graph.rels (Session.db s)
    = [ {| Graph.start_node := 1; Graph.rel_type := "CALLS";
           Graph.rel_properties := Cypher.edge_key (Sample.calls "a" "b");
           Graph.end_node := 0 |};
        {| Graph.start_node := 1; Graph.rel_type := "CALLS";
           Graph.rel_properties := Cypher.edge_key (Sample.calls "a" "b");
           Graph.end_node := 2 |} ].
Proof. split; vm_compute; reflexivity. Qed.

(** C2, the input that refutes it: the function [a] is written with the text
    [old] and written again with the text [new]. Overwriting in place would
    leave the one node with the new text; the store holds two nodes, and the
    first still has the old text. *)
Lemma reingest_changed_attributes_not_in_place :
  let N := Sample.function_node "a" "old" in
  let N' := Sample.function_node "a" "new" in
  let s1 := Session.exec (Neo4jManager.save_graph Sample.tenant1 [N] [])
              Sample.s0 in
  let s2 := Session.exec (Neo4jManager.save_graph Sample.tenant1 [N'] []) s1 in
  Graph.nodes (Session.db s1) = [Cypher.created_node "r1" "e1" N]
  ∧ Graph.nodes (Session.db s2) ≠ [Cypher.created_node "r1" "e1" N']
  ∧ Graph.nodes (Session.db s2)
    = [Cypher.created_node "r1" "e1" N; Cypher.created_node "r1" "e1" N'].
Proof.
  split; [vm_compute; reflexivity|]. split; [|vm_compute; reflexivity].
  intros H. apply (f_equal List.length) in H. vm_compute in H. discriminate H.
Qed.

(** The theorem above at the two writes of the function [a], into the empty
    store. *)
Lemma reingest_changed_attributes_adds_node_witness :
  Graph.nodes
    (Session.db
       (Session.exec
          (Neo4jManager.save_graph Sample.tenant1
             [Sample.function_node "a" "old"] [] ;;
           Neo4jManager.save_graph Sample.tenant1
             [Sample.function_node "a" "new"] [])
          Sample.s0))
  = [] ++ [Cypher.created_node "r1" "e1" (Sample.function_node "a" "old");
           Cypher.created_node "r1" "e1" (Sample.function_node "a" "new")].
Proof.
  apply (reingest_changed_attributes_adds_node Sample.tenant1 Sample.s0
           (Sample.function_node "a" "old") (Sample.function_node "a" "new")
           "text" (Graph.VStr "new")).
  - apply Forall_nil_2.
  - apply Forall_nil_2.
  - vm_compute. reflexivity.
  - vm_compute. discriminate.
Defined.

(** C6: the nodes of a call are written, and one of its edges names a source
    or a target that no stored node has as its [node_id]. The match of that
    edge yields no row, so its statement merges nothing and ends as every
    other does: the call leaves the store that the call without this edge
    leaves, whatever edges stand before and after it; alone it leaves the
    store of the node write; and the call ends with the report of all its
    edges, this one counted. *)
Theorem edge_with_missing_endpoint_is_skipped
    (self : Neo4jManager.t) (s : Session.State) (nodes : list NodeObj.t)
    (es1 es2 : list EdgeObj.t) (e : EdgeObj.t) :
  let st := Session.db (Session.exec (Neo4jManager.create_nodes self nodes) s) in
  let absent id :=
    Forall (fun n => Graph.properties n !! "node_id" ≠ Some (Graph.VStr id))
           (Graph.nodes st) in
  absent (EdgeObj.sourceId e) ∨ absent (EdgeObj.targetId e) →
  Cypher.edge_rows e st = []
  ∧ Session.db (Session.exec (Neo4jManager.save_graph self nodes [e]) s) = st
  ∧ Session.db
      (Session.exec (Neo4jManager.save_graph self nodes (es1 ++ e :: es2)) s)
    = Session.db
        (Session.exec (Neo4jManager.save_graph self nodes (es1 ++ es2)) s)
  ∧ last (Session.log
            (Session.exec
               (Neo4jManager.save_graph self nodes (es1 ++ e :: es2)) s))
    = Some (Session.Info
              ("Created " +:+ pretty (List.length (es1 ++ e :: es2))
               +:+ " edges")).
Proof.
  intros st absent Habs. subst absent. cbv beta in Habs.
  assert (∀ st', Graph.nodes st' = Graph.nodes st →
                 Cypher.merge_edge e st' = st') as Hskip.
  { intros st' Hn. unfold Cypher.merge_edge.
    rewrite (edge_rows_nodes e st' st Hn), edge_rows_absent; [reflexivity|].
    destruct Habs as [Ha|Ha]; [left|right];
      apply absent_no_match; intros n Hin;
      rewrite Forall_forall in Ha; by apply Ha. }
  assert (Cypher.edge_rows e st = []) as Hrows.
  { apply edge_rows_absent.
    destruct Habs as [Ha|Ha]; [left|right];
      apply absent_no_match; intros n Hin;
      rewrite Forall_forall in Ha; by apply Ha. }
  split; [exact Hrows|]. split; [|split].
  - rewrite db_save_graph, <- db_create_nodes. cbn [foldl]. by apply Hskip.
  - rewrite !db_save_graph, <- !db_create_nodes. fold st.
    rewrite !foldl_app. cbn [foldl]. f_equal.
    apply Hskip. apply merge_edges_nodes.
  - unfold Neo4jManager.save_graph. rewrite exec_bind, log_create_edges.
    by rewrite app_assoc, last_snoc.
Qed.

(** The theorem above for an edge to [b] between edges whose endpoints are
    stored, when only [a] is written. *)
Lemma edge_with_missing_endpoint_is_skipped_witness :
  let self := Sample.tenant1 in
  let nodes := [Sample.function_node "a" "mine"] in
  let es1 := [Sample.calls "a" "a"] in
  let es2 := [Sample.calls "a" "a"; Sample.calls "b" "a"] in
  let e := Sample.calls "a" "b" in
  let st := Session.db
              (Session.exec (Neo4jManager.create_nodes self nodes) Sample.s0) in
  Cypher.edge_rows e st = []
  ∧ Session.db
      (Session.exec (Neo4jManager.save_graph self nodes [e]) Sample.s0) = st
  ∧ Session.db
      (Session.exec (Neo4jManager.save_graph self nodes (es1 ++ e :: es2))
         Sample.s0)
    = Session.db
        (Session.exec (Neo4jManager.save_graph self nodes (es1 ++ es2))
           Sample.s0)
  ∧ last (Session.log
            (Session.exec
               (Neo4jManager.save_graph self nodes (es1 ++ e :: es2))
               Sample.s0))
    = Some (Session.Info
              ("Created " +:+ pretty (List.length (es1 ++ e :: es2))
               +:+ " edges")).
Proof.
  apply (edge_with_missing_endpoint_is_skipped Sample.tenant1 Sample.s0
           [Sample.function_node "a" "mine"] [Sample.calls "a" "a"]
           [Sample.calls "a" "a"; Sample.calls "b" "a"]
           (Sample.calls "a" "b")).
  right. cbv beta zeta. apply (bool_decide_unpack _). vm_compute. exact I.
Defined.

(** ** The retriever *)

Section RetrieverRuns.
Import Graph Session.

Lemma filter_none {A} (P : A → Prop) `{!∀ x, Decision (P x)} (l : list A) :
  Forall (fun x => ¬ P x) l → filter P l = [].
Proof.
  induction 1 as [|x l Hx _ IH]; [reflexivity|].
  by rewrite filter_cons_False.
Qed.

(** The read by identifier, statement by statement. *)
Lemma get_node_by_id_run (self : Neo4jManager.t) (node_id : string)
    (s : State) :
  Neo4jManager.get_node_by_id self node_id s
  = match Cypher.node_by_id node_id (db s) with
    | [] =>
        ((None, []),
         {| db := db s; log := log s ++ [Run (MatchNodeById node_id)] |})
    | node_data :: _ =>
        ((Some (Neo4jManager.node_of_data node_data),
          Neo4jManager.neighbor_of_record
            <$> Cypher.neighbors (Some (VStr node_id)) (db s)),
         {| db := db s;
            log := (log s ++ [Run (MatchNodeById node_id)])
                   ++ [Run (MatchNeighbors (Some (VStr node_id)))] |})
    end.
Proof.
  unfold Neo4jManager.get_node_by_id.
  unfold mbind, session_bind, Session.bind, query, run. cbn.
  by destruct (Cypher.node_by_id node_id (db s)).
Qed.

End RetrieverRuns.

(** C8: when no stored node has the argument as its [node_id], the read by
    identifier returns the pair of [None] and the empty list, as a value:
    it runs its one statement, leaves the store as it is, and does not go
    on to the neighbour query. *)
Theorem lookup_miss_is_the_empty_pair
    (self : Neo4jManager.t) (s : Session.State) (node_id : string) :
  Forall (fun n => Graph.properties n !! "node_id" ≠ Some (Graph.VStr node_id))
         (Graph.nodes (Session.db s)) →
  Neo4jManager.get_node_by_id self node_id s
  = ((None, []),
     {| Session.db := Session.db s;
        Session.log := Session.log s
                       ++ [Session.Run (Session.MatchNodeById node_id)] |}).
Proof.
  intros Hmiss. rewrite get_node_by_id_run. unfold Cypher.node_by_id.
  by rewrite filter_none.
Qed.

(** The theorem above for the identifier [b] in a store that holds [a]. *)
Lemma lookup_miss_is_the_empty_pair_witness :
  let s := Session.exec
             (Neo4jManager.save_graph Sample.tenant1
                [Sample.function_node "a" "mine"] [Sample.calls "a" "a"])
             Sample.s0 in
  Neo4jManager.get_node_by_id Sample.tenant1 "b" s
  = ((None, []),
     {| Session.db := Session.db s;
        Session.log := Session.log s
                       ++ [Session.Run (Session.MatchNodeById "b")] |}).
Proof.
  apply (lookup_miss_is_the_empty_pair Sample.tenant1 _ "b").
  apply (bool_decide_unpack _). vm_compute. exact I.
Defined.





(** The fallback at work: the index has no answer for [*b*] and one for [b],
    in the partition of the caller. *)
Example search_falls_back_to_exact :
  let s := Session.exec
             (Neo4jManager.save_graph Sample.tenant1
                [Sample.function_node "a" "mine"; Sample.function_node "b" "mine"]
                [Sample.calls "b" "a"])
             Sample.s0 in
  Session.eval
    (Neo4jManager.search_nodes_by_text Sample.exact_index Sample.tenant1 "b") s
  = (Some {| NodeResult.node_id := Some (Graph.VStr "b");
             NodeResult.name := None;
             NodeResult.node_path := None;
             NodeResult.start_line := None;
             NodeResult.end_line := None;
             NodeResult.text := Some (Graph.VStr "mine") |},
     [ {| NeighborResult.node_id := Some (Graph.VStr "a");
          NeighborResult.name := None;
          NeighborResult.node_type := ["FUNCTION"; "NODE"];
          NeighborResult.relationship_type := "CALLS" |} ]).
Proof. vm_compute. reflexivity. Qed.

(** ** The query tool *)

(** C9: the tool's [get_node_by_id] hands back the tuple of the manager as
    it is, for every query: a tuple of two items is true whatever it holds,
    so neither test on [result] selects a sentence. On a miss the caller
    gets the pair of [None] and the empty list, not the sentence. The tool's
    [search_nodes_by_text] unpacks the pair and tests its first item, and
    returns the sentence on a miss. *)
Theorem tool_get_node_by_id_returns_the_raw_pair :
  (∀ (db_manager : Neo4jManager.t) (query : string) (s : Session.State),
     Session.eval (GraphQueryTool.get_node_by_id db_manager query) s
     = GraphQueryTool.py_pair
         (Session.eval (Neo4jManager.get_node_by_id db_manager query) s))
  ∧ Session.eval (GraphQueryTool.get_node_by_id Sample.tenant1 "missing")
      Sample.s0
    = GraphQueryTool.PyTuple
        [GraphQueryTool.PyNone; GraphQueryTool.PyList []]
  ∧ Session.eval (GraphQueryTool.get_node_by_id Sample.tenant1 "missing")
      Sample.s0
    ≠ GraphQueryTool.PyStr GraphQueryTool.no_code_found
  ∧ (∀ queryNodes str_text str_neighbours
       (db_manager : Neo4jManager.t) (query : string) (s : Session.State),
       (Session.eval
          (Neo4jManager.search_nodes_by_text queryNodes db_manager query) s).1
       = None →
       Session.eval
         (GraphQueryTool.search_nodes_by_text queryNodes str_text
            str_neighbours db_manager query) s
       = GraphQueryTool.PyStr GraphQueryTool.no_code_found).
Proof.
  split; [|split; [vm_compute; reflexivity|split; [vm_compute; discriminate|]]].
  - intros db_manager query s.
    unfold Session.eval, GraphQueryTool.get_node_by_id.
    unfold mbind, session_bind, Session.bind.
    by destruct (Neo4jManager.get_node_by_id db_manager query s) as [[o l] s'].
  - intros queryNodes str_text str_neighbours db_manager query s.
    unfold Session.eval, GraphQueryTool.search_nodes_by_text.
    unfold mbind, session_bind, Session.bind.
    destruct (Neo4jManager.search_nodes_by_text queryNodes db_manager query s)
      as [[code neighbours] s'].
    cbn. by intros ->.
Qed.

(** ** The connector *)

Ltac run_init :=
  unfold Neo4jManager.__init__, Neo4jManager.create_indexes_and_constraints;
  unfold Neo4jManager.create_function_name_index,
    Neo4jManager.create_node_id_index, Neo4jManager.create_entityId_index;
  cbn [seq Neo4jManager.retries Neo4jManager.connect_loop];
  unfold mbind, mret, session_bind, session_ret;
  unfold Session.bind, Session.ret, Session.emit, Session.run_schema.

(** C7: a manager is built with whatever driver and whatever database. The
    driver is tried at most three times. When it is unavailable at the
    attempts before [k] and answers at attempt [k < 3], the attempts
    [0 .. k] are made, each failed one followed by a sleep of [2 ^ attempt]
    seconds, and no further attempt is made; then the three index
    statements are sent in their order, and the manager is returned when
    all three are run. When one of them raises, whatever it raises, the
    later ones are not sent and the exception reaches the caller: the
    provisioning is outside the retry. When the driver is unavailable at
    all three attempts, the sleeps are of 1 and of 2 seconds, none follows
    the last attempt, no index statement is sent and [ServiceUnavailable]
    is raised. *)
Theorem connection_is_retried_with_backoff
    (driver : nat → option Session.Exn)
    (schema : Session.Statement → option Session.Exn)
    (repo_id entity_id : option string) (s : Session.State) :
  let result := Neo4jManager.__init__ driver schema repo_id entity_id s in
  let tries k :=
    flat_map (fun j => [Session.Connect j; Session.Sleep (2 ^ j)]) (seq 0 k) in
  let manager :=
    {| Neo4jManager.repo_id := default "default_repo" repo_id;
       Neo4jManager.entity_id := default "default_user" entity_id |} in
  let provisioning : list Session.Statement * (Session.Exn + Neo4jManager.t) :=
    match schema Session.CreateFulltextIndex with
    | Some e => ([Session.CreateFulltextIndex], inl e)
    | None =>
        match schema Session.CreateNodeIdIndex with
        | Some e =>
            ([Session.CreateFulltextIndex; Session.CreateNodeIdIndex], inl e)
        | None =>
            match schema Session.CreateEntityIdIndex with
            | Some e =>
                ([Session.CreateFulltextIndex; Session.CreateNodeIdIndex;
                  Session.CreateEntityIdIndex], inl e)
            | None =>
                ([Session.CreateFulltextIndex; Session.CreateNodeIdIndex;
                  Session.CreateEntityIdIndex], inr manager)
            end
        end
    end in
  (∃ trace,
     Session.log result.2 = Session.log s ++ trace
     ∧ Session.connects trace ≤ 3)
  ∧ (∀ k, k < 3 →
       (∀ j, j < k → driver j = Some Session.ServiceUnavailable) →
       driver k = None →
       Session.log result.2
       = Session.log s ++ tries k ++ [Session.Connect k]
         ++ (Session.Run <$> provisioning.1)
       ∧ result.1 = provisioning.2)
  ∧ ((∀ j, j < 3 → driver j = Some Session.ServiceUnavailable) →
     Session.log result.2
     = Session.log s
       ++ [Session.Connect 0; Session.Sleep 1; Session.Connect 1;
           Session.Sleep 2; Session.Connect 2]
     ∧ result.1 = inl Session.ServiceUnavailable).
Proof.
  intros result tries manager provisioning.
  subst result tries manager provisioning. run_init.
  destruct (schema Session.CreateFulltextIndex) as [e1|];
    destruct (schema Session.CreateNodeIdIndex) as [e2|];
    destruct (schema Session.CreateEntityIdIndex) as [e3|];
    destruct (driver 0) as [[| |name0]|] eqn:D0;
    destruct (driver 1) as [[| |name1]|] eqn:D1;
    destruct (driver 2) as [[| |name2]|] eqn:D2;
    cbn; (split; [|split]);
    try (eexists; split;
         [rewrite <- ?app_assoc; reflexivity | cbn; lia]);
    try (intros k Hk Hbefore Hnow;
         destruct k as [|[|[|k]]]; [| | |lia];
         try congruence;
         try (rewrite (Hbefore 0) in D0 by lia; discriminate D0);
         try (rewrite (Hbefore 1) in D1 by lia; discriminate D1);
         (split; [cbn; by rewrite <- ?app_assoc | reflexivity]));
    try (intros Hall;
         try (rewrite (Hall 0) in D0 by lia; discriminate D0);
         try (rewrite (Hall 1) in D1 by lia; discriminate D1);
         try (rewrite (Hall 2) in D2 by lia; discriminate D2);
         (split; [cbn; by rewrite <- ?app_assoc | reflexivity])).
Qed.

(** Two failures and a success: sleeps of 1 and 2 seconds, three attempts,
    then the indexes. *)
Example connects_at_the_third_attempt :
  Neo4jManager.__init__ (Sample.unavailable_for 2) (fun _ => None)
    (Some "r1") None Sample.s0
  = (inr {| Neo4jManager.repo_id := "r1";
            Neo4jManager.entity_id := "default_user" |},
     {| Session.db := Graph.empty;
        Session.log :=
          [Session.Connect 0; Session.Sleep 1; Session.Connect 1;
           Session.Sleep 2; Session.Connect 2;
           Session.Run Session.CreateFulltextIndex;
           Session.Run Session.CreateNodeIdIndex;
           Session.Run Session.CreateEntityIdIndex] |}).
Proof. reflexivity. Qed.

(** Three failures: the exception reaches the caller. *)
Example gives_up_after_three_attempts :
  Neo4jManager.__init__ (Sample.unavailable_for 3) (fun _ => None)
    (Some "r1") None Sample.s0
  = (inl Session.ServiceUnavailable,
     {| Session.db := Graph.empty;
        Session.log :=
          [Session.Connect 0; Session.Sleep 1; Session.Connect 1;
           Session.Sleep 2; Session.Connect 2] |}).
Proof. reflexivity. Qed.

(** A driver that connects lazily and a server that is down: the driver is
    returned at once, and the first index statement raises with no retry. *)
Example lazy_driver_raises_at_the_first_index :
  Neo4jManager.__init__ (fun _ => None)
    (fun _ => Some Session.ServiceUnavailable) None None Sample.s0
  = (inl Session.ServiceUnavailable,
     {| Session.db := Graph.empty;
        Session.log :=
          [Session.Connect 0; Session.Run Session.CreateFulltextIndex] |}).
Proof. reflexivity. Qed.

(** ** What a write adds *)

Section WriterAdds.
Import Graph Session.

Lemma positions_spec (P : StoredNode → Prop) `{!∀ n, Decision (P n)}
    (l : list StoredNode) : ∀ k i,
  i ∈ positions P k l ↔ k ≤ i ∧ ∃ n, l !! (i - k) = Some n ∧ P n.
Proof.
  induction l as [|n l IH]; intros k i; cbn [positions].
  - split; [by intros ?%elem_of_nil | by intros (_ & ? & ? & _)].
  - assert (i ∈ positions P (S k) l
            ↔ S k ≤ i ∧ ∃ n', (n :: l) !! (i - k) = Some n' ∧ P n') as Htl.
    { rewrite IH. split; intros (Hle & n' & Hl & Hn'); (split; [lia|]);
        exists n'; (split; [|exact Hn']).
      - by replace (i - k) with (S (i - S k)) by lia.
      - by replace (i - k) with (S (i - S k)) in Hl by lia. }
    destruct (decide (P n)) as [Hn|Hn].
    + rewrite elem_of_cons, Htl. split.
      * intros [->|(Hle & Hex)]; [|split; [lia | exact Hex]].
        split; [lia|]. exists n. by rewrite Nat.sub_diag.
      * intros (Hle & n' & Hl & Hn').
        destruct (decide (i = k)) as [->|Hne]; [by left|].
        right. split; [lia|]. by exists n'.
    + rewrite Htl. split.
      * intros (Hle & Hex). split; [lia | exact Hex].
      * intros (Hle & n' & Hl & Hn').
        destruct (decide (i = k)) as [->|Hne].
        -- rewrite Nat.sub_diag in Hl. cbn in Hl. congruence.
        -- split; [lia|]. by exists n'.
Qed.

(** The rows of [MATCH (n:L.. {..})] are the positions of the stored nodes
    that match the pattern. *)
Lemma match_nodes_spec ls ps st i :
  i ∈ match_nodes ls ps st
  ↔ ∃ n, nodes st !! i = Some n ∧ node_matches ls ps n.
Proof.
  unfold match_nodes. rewrite positions_spec, Nat.sub_0_r.
  split; [by intros (_ & H) | intros H; split; [lia | exact H]].
Qed.

Lemma edge_rows_spec e st a b :
  (a, b) ∈ Cypher.edge_rows e st
  ↔ a ∈ match_nodes ["NODE"] {["node_id" := VStr (EdgeObj.sourceId e)]} st
    ∧ b ∈ match_nodes ["NODE"] {["node_id" := VStr (EdgeObj.targetId e)]} st.
Proof.
  unfold Cypher.edge_rows.
  generalize (match_nodes ["NODE"]
                {["node_id" := VStr (EdgeObj.sourceId e)]} st).
  generalize (match_nodes ["NODE"]
                {["node_id" := VStr (EdgeObj.targetId e)]} st).
  intros targets sources. rewrite list_elem_of_bind. split.
  - intros (a' & Hin & Ha'). apply list_elem_of_bind in Hin as (b' & Hin & Hb').
    apply list_elem_of_singleton in Hin. injection Hin as -> ->.
    split; assumption.
  - intros [Ha Hb]. exists a. split; [|exact Ha].
    apply list_elem_of_bind. exists b. split; [apply list_elem_of_here | exact Hb].
Qed.

(** The pattern of an endpoint: the label [NODE] and the [node_id]. *)
Lemma endpoint_matches (id : string) (n : StoredNode) :
  node_matches ["NODE"] {["node_id" := VStr id]} n
  ↔ "NODE" ∈ labels n ∧ properties n !! "node_id" = Some (VStr id).
Proof.
  unfold node_matches. rewrite map_singleton_subseteq_l. split.
  - intros [Hl Hp]. split; [apply Hl; left | exact Hp].
  - intros [Hl Hp]. split; [|exact Hp].
    intros l ->%list_elem_of_singleton. exact Hl.
Qed.

(** The relationships that the rows of an edge add, each between the two
    nodes of a row. *)
Lemma merge_rows_adds ty ps rows : ∀ st,
  ∃ added,
    rels (Cypher.merge_rows ty ps rows st) = rels st ++ added
    ∧ Forall (fun r => (start_node r, end_node r) ∈ rows
                       ∧ rel_type r = ty ∧ rel_properties r = ps) added.
Proof.
  induction rows as [|[a b] rows IH]; intros st.
  - exists []. split; [by rewrite app_nil_r | constructor].
  - cbn. destruct (IH (apoc_merge_relationship a ty ps b st))
      as (added & Hrels & Hadded).
    unfold Cypher.merge_rows in Hrels. rewrite Hrels.
    assert (Forall (fun r => (start_node r, end_node r) ∈ (a, b) :: rows
                             ∧ rel_type r = ty ∧ rel_properties r = ps) added)
      as Hadded'.
    { eapply Forall_impl; [exact Hadded|].
      intros r (Hin & Hty & Hps). split; [by right | by split]. }
    unfold apoc_merge_relationship. case_decide.
    + by exists added.
    + cbn [rels]. eexists (_ :: added). rewrite <- app_assoc.
      split; [reflexivity|]. constructor; [|exact Hadded'].
      cbn. split; [left | by split].
Qed.

(** The node write: what is stored stays where it is, and what is added is
    the node the merge creates for an item of the list. *)
Lemma merge_nodes_adds repoId entityId (nodeList : list NodeObj.t) : ∀ st,
  let st' := foldl (fun st node => Cypher.merge_node repoId entityId node st)
                   st nodeList in
  rels st' = rels st
  ∧ ∃ added,
      nodes st' = nodes st ++ added
      ∧ Forall (fun n => ∃ node, node ∈ nodeList
                         ∧ n = Cypher.created_node repoId entityId node) added.
Proof.
  induction nodeList as [|node nodeList IH]; intros st; cbn.
  - split; [reflexivity|]. exists []. split; [by rewrite app_nil_r | constructor].
  - destruct (IH (Cypher.merge_node repoId entityId node st))
      as (Hrels & added & Hnodes & Hadded).
    cbn zeta in Hrels, Hnodes. rewrite Hrels, Hnodes.
    assert (Forall (fun n => ∃ node', node' ∈ node :: nodeList
              ∧ n = Cypher.created_node repoId entityId node') added)
      as Hadded'.
    { eapply Forall_impl; [exact Hadded|].
      intros n (node' & Hin & ->). exists node'. split; [by right | done]. }
    unfold Cypher.merge_node, apoc_merge_node. case_decide.
    + split; [reflexivity|]. by exists added.
    + cbn [rels nodes]. split; [reflexivity|].
      eexists (_ :: added). rewrite <- app_assoc. split; [reflexivity|].
      constructor; [|exact Hadded'].
      exists node. split; [left | reflexivity].
Qed.

(** The edge write: the nodes stay as they are, and what is added is a
    relationship between the two nodes of a row of an item of the list. *)
Lemma merge_edges_adds (edgesList : list EdgeObj.t) : ∀ st,
  let st' := foldl (fun st e => Cypher.merge_edge e st) st edgesList in
  nodes st' = nodes st
  ∧ ∃ added,
      rels st' = rels st ++ added
      ∧ Forall (fun r => ∃ e, e ∈ edgesList
                         ∧ (start_node r, end_node r) ∈ Cypher.edge_rows e st
                         ∧ rel_type r = EdgeObj.type e
                         ∧ rel_properties r = Cypher.edge_key e) added.
Proof.
  induction edgesList as [|e edgesList IH]; intros st; cbn.
  - split; [reflexivity|]. exists []. split; [by rewrite app_nil_r | constructor].
  - destruct (IH (Cypher.merge_edge e st)) as (Hnodes & added & Hrels & Hadded).
    cbn zeta in Hnodes, Hrels. rewrite Hnodes, Hrels, merge_edge_nodes.
    split; [reflexivity|].
    destruct (merge_rows_adds (EdgeObj.type e) (Cypher.edge_key e)
                (Cypher.edge_rows e st) st) as (added0 & Hrels0 & Hadded0).
    unfold Cypher.merge_edge at 1. rewrite Hrels0.
    exists (added0 ++ added). rewrite <- app_assoc. split; [reflexivity|].
    apply Forall_app. split.
    + eapply Forall_impl; [exact Hadded0|].
      intros r (Hin & Hty & Hps). exists e. split; [left | done].
    + eapply Forall_impl; [exact Hadded|].
      intros r (e' & Hin & Hrow & Hty & Hps). exists e'.
      split; [by right|]. split; [|done].
      by rewrite <- (edge_rows_nodes e' (Cypher.merge_edge e st) st)
        by apply merge_edge_nodes.
Qed.

End WriterAdds.

(** ** Invariants of the bulk writer *)

Section WriterInvariants.
Import Graph Session.

(** A call of [save_graph], as what it appends to the store. *)
Lemma save_graph_adds (self : Neo4jManager.t) (nodeList : list NodeObj.t)
    (edgesList : list EdgeObj.t) (s : State) :
  let st' := db (exec (Neo4jManager.save_graph self nodeList edgesList) s) in
  ∃ new_nodes new_rels,
    nodes st' = nodes (db s) ++ new_nodes
    ∧ rels st' = rels (db s) ++ new_rels
    ∧ Forall (fun n => ∃ node, node ∈ nodeList
                ∧ n = Cypher.created_node (Neo4jManager.repo_id self)
                        (Neo4jManager.entity_id self) node) new_nodes
    ∧ Forall (fun r => ∃ e, e ∈ edgesList
                ∧ (start_node r, end_node r) ∈ Cypher.edge_rows e st'
                ∧ rel_type r = EdgeObj.type e
                ∧ rel_properties r = Cypher.edge_key e) new_rels.
Proof.
  cbn zeta. rewrite db_save_graph.
  destruct (merge_nodes_adds (Neo4jManager.repo_id self)
              (Neo4jManager.entity_id self) nodeList (db s))
    as (Hrels & new_nodes & Hnodes & Hnew).
  cbn zeta in Hrels, Hnodes.
  set (st1 := foldl _ (db s) nodeList) in *.
  destruct (merge_edges_adds edgesList st1) as (Hnodes' & new_rels & Hrels' & Hnew').
  cbn zeta in Hnodes', Hrels'.
  set (st2 := foldl _ st1 edgesList) in *.
  exists new_nodes, new_rels.
  split; [by rewrite Hnodes', Hnodes|].
  split; [by rewrite Hrels', Hrels|].
  split; [exact Hnew|].
  eapply Forall_impl; [exact Hnew'|].
  intros r (e & Hin & Hrow & Hty & Hps). exists e.
  split; [exact Hin|]. split; [|split; assumption].
  by rewrite (edge_rows_nodes e st2 st1 Hnodes').
Qed.

End WriterInvariants.

(** X1: a call of [save_graph] only appends. Every node that was stored is
    still at its position with its labels and properties, and every
    relationship that was stored is still there, whatever the lists hold. *)
Theorem save_graph_only_appends
    (self : Neo4jManager.t) (nodeList : list NodeObj.t)
    (edgesList : list EdgeObj.t) (s : Session.State) :
  let st' :=
    Session.db
      (Session.exec (Neo4jManager.save_graph self nodeList edgesList) s) in
  Graph.nodes (Session.db s) `prefix_of` Graph.nodes st'
  ∧ Graph.rels (Session.db s) `prefix_of` Graph.rels st'.
Proof.
  destruct (save_graph_adds self nodeList edgesList s)
    as (new_nodes & new_rels & Hn & Hr & _).
  cbn zeta in *. rewrite Hn, Hr. split; apply prefix_app_r; reflexivity.
Qed.

(** X2: every node that a call of [save_graph] adds is made from an item of
    its node list, and carries the [repoId] and the [entityId] of the
    manager, the label [NODE] and the type of the item as a label. *)
Theorem written_nodes_carry_the_partition
    (self : Neo4jManager.t) (nodeList : list NodeObj.t)
    (edgesList : list EdgeObj.t) (s : Session.State) :
  let st' :=
    Session.db
      (Session.exec (Neo4jManager.save_graph self nodeList edgesList) s) in
  Forall (fun n =>
            Graph.properties n !! "repoId"
            = Some (Graph.VStr (Neo4jManager.repo_id self))
            ∧ Graph.properties n !! "entityId"
              = Some (Graph.VStr (Neo4jManager.entity_id self))
            ∧ "NODE" ∈ Graph.labels n
            ∧ ∃ node, node ∈ nodeList
                ∧ NodeObj.type node ∈ Graph.labels n
                ∧ Graph.properties n
                  = Cypher.map_merge (NodeObj.attributes node)
                      (Neo4jManager.repo_id self)
                      (Neo4jManager.entity_id self))
         (drop (List.length (Graph.nodes (Session.db s))) (Graph.nodes st')).
Proof.
  destruct (save_graph_adds self nodeList edgesList s)
    as (new_nodes & new_rels & Hn & _ & Hnew & _).
  cbn zeta in *. rewrite Hn, drop_app_length.
  eapply Forall_impl; [exact Hnew|].
  intros n (node & Hin & ->).
  destruct (created_node_is_tagged (Neo4jManager.repo_id self)
              (Neo4jManager.entity_id self) node) as [Hrepo Hentity].
  split; [exact Hrepo|]. split; [exact Hentity|].
  assert (∀ l, l ∈ Cypher.node_labels node
               → l ∈ Graph.labels
                   (Cypher.created_node (Neo4jManager.repo_id self)
                      (Neo4jManager.entity_id self) node)) as Hlabels.
  { intros l Hl. cbn [Cypher.created_node Graph.labels].
    apply elem_of_remove_dups. exact Hl. }
  split.
  - apply Hlabels. unfold Cypher.node_labels. apply elem_of_app. right.
    apply list_elem_of_further, list_elem_of_here.
  - exists node. split; [exact Hin|]. split; [|reflexivity].
    apply Hlabels. unfold Cypher.node_labels. apply elem_of_app. right.
    apply list_elem_of_here.
Qed.

(** X3: every relationship that a call of [save_graph] adds comes from an
    item of its edge list: it has the type of the item and its [scopeText]
    as only property, it starts at a stored node with the label [NODE] and
    the [sourceId] of the item as [node_id], and ends at one with the
    [targetId]. *)
Theorem written_relationships_come_from_edges
    (self : Neo4jManager.t) (nodeList : list NodeObj.t)
    (edgesList : list EdgeObj.t) (s : Session.State) :
  let st' :=
    Session.db
      (Session.exec (Neo4jManager.save_graph self nodeList edgesList) s) in
  Forall (fun r =>
            ∃ e p p2,
              e ∈ edgesList
              ∧ Graph.rel_type r = EdgeObj.type e
              ∧ Graph.rel_properties r
                = {["scopeText" := Graph.VStr (EdgeObj.scopeText e)]}
              ∧ Graph.nodes st' !! Graph.start_node r = Some p
              ∧ "NODE" ∈ Graph.labels p
              ∧ Graph.properties p !! "node_id"
                = Some (Graph.VStr (EdgeObj.sourceId e))
              ∧ Graph.nodes st' !! Graph.end_node r = Some p2
              ∧ "NODE" ∈ Graph.labels p2
              ∧ Graph.properties p2 !! "node_id"
                = Some (Graph.VStr (EdgeObj.targetId e)))
         (drop (List.length (Graph.rels (Session.db s))) (Graph.rels st')).
Proof.
  destruct (save_graph_adds self nodeList edgesList s)
    as (new_nodes & new_rels & _ & Hr & _ & Hnew).
  cbn zeta in *. rewrite Hr, drop_app_length.
  eapply Forall_impl; [exact Hnew|].
  intros r (e & Hin & Hrow & Hty & Hps).
  apply edge_rows_spec in Hrow as [Ha Hb].
  apply match_nodes_spec in Ha as (p & Hp & Hpm).
  apply match_nodes_spec in Hb as (p2 & Hp2 & Hp2m).
  apply endpoint_matches in Hpm as [Hpl Hpid].
  apply endpoint_matches in Hp2m as [Hp2l Hp2id].
  exists e, p, p2. repeat (split; [assumption|]). assumption.
Qed.

(** X4: a call of [save_graph] on a store in which every relationship has
    its two nodes leaves such a store. *)
Theorem save_graph_keeps_stores_well_formed
    (self : Neo4jManager.t) (nodeList : list NodeObj.t)
    (edgesList : list EdgeObj.t) (s : Session.State) :
  Invariant.wf (Session.db s) →
  Invariant.wf
    (Session.db
       (Session.exec (Neo4jManager.save_graph self nodeList edgesList) s)).
Proof.
  intros Hwf.
  destruct (save_graph_adds self nodeList edgesList s)
    as (new_nodes & new_rels & Hn & Hr & _ & Hnew).
  cbn zeta in *. unfold Invariant.wf in *. rewrite Hr.
  apply Forall_app. split.
  - eapply Forall_impl; [exact Hwf|].
    intros r [Ha Hb]. rewrite Hn, length_app. split; lia.
  - eapply Forall_impl; [exact Hnew|].
    intros r (e & _ & Hrow & _).
    apply edge_rows_spec in Hrow as [Ha Hb].
    apply match_nodes_spec in Ha as (p & Hp & _).
    apply match_nodes_spec in Hb as (p2 & Hp2 & _).
    split; eapply lookup_lt_Some; eassumption.
Qed.

(** The theorem above for a write of two nodes and an edge between them
    into the empty store. *)
Lemma save_graph_keeps_stores_well_formed_witness :
  Invariant.wf
    (Session.db
       (Session.exec
          (Neo4jManager.save_graph Sample.tenant1
             [Sample.function_node "a" "mine"; Sample.function_node "b" "mine"]
             [Sample.calls "a" "b"])
          Sample.s0)).
Proof.
  apply (save_graph_keeps_stores_well_formed Sample.tenant1
           [Sample.function_node "a" "mine"; Sample.function_node "b" "mine"]
           [Sample.calls "a" "b"] Sample.s0).
  apply (bool_decide_unpack _). vm_compute. exact I.
Defined.

(** ** Writing a call again, and linking inside a call *)

Section WriterRepeats.
Import Graph Session.

Lemma Exists_prefix {A} (P : A → Prop) (l1 l2 : list A) :
  l1 `prefix_of` l2 → Exists P l1 → Exists P l2.
Proof. intros [k ->] H. apply Exists_app. by left. Qed.

Lemma merge_node_prefix repoId entityId node st :
  nodes st `prefix_of` nodes (Cypher.merge_node repoId entityId node st).
Proof. apply apoc_merge_node_prefix. Qed.

Lemma merge_nodes_prefix repoId entityId (nodeList : list NodeObj.t) : ∀ st,
  nodes st `prefix_of`
    nodes (foldl (fun st node => Cypher.merge_node repoId entityId node st)
                 st nodeList).
Proof.
  induction nodeList as [|node nodeList IH]; intros st; [reflexivity|].
  cbn. etrans; [apply (merge_node_prefix repoId entityId node)|apply IH].
Qed.

(** After the node write every item of the list has a stored node that
    carries its labels and its tagged attributes. *)
Lemma merge_nodes_all_matched repoId entityId (nodeList : list NodeObj.t) :
  ∀ st node,
    node ∈ nodeList →
    Exists (node_matches (Cypher.node_labels node)
              (Cypher.map_merge (NodeObj.attributes node) repoId entityId))
           (nodes (foldl (fun st node =>
                            Cypher.merge_node repoId entityId node st)
                         st nodeList)).
Proof.
  induction nodeList as [|node0 nodeList IH]; intros st node Hin.
  - by apply elem_of_nil in Hin.
  - cbn. apply elem_of_cons in Hin as [->|Hin]; [|by apply IH].
    eapply Exists_prefix; [apply merge_nodes_prefix|].
    apply apoc_merge_node_exists.
Qed.

Lemma merge_nodes_fixed repoId entityId (nodeList : list NodeObj.t) st :
  (∀ node, node ∈ nodeList →
     Exists (node_matches (Cypher.node_labels node)
               (Cypher.map_merge (NodeObj.attributes node) repoId entityId))
            (nodes st)) →
  foldl (fun st node => Cypher.merge_node repoId entityId node st) st nodeList
  = st.
Proof.
  induction nodeList as [|node nodeList IH]; intros Hall; [reflexivity|].
  cbn. unfold Cypher.merge_node at 2.
  rewrite apoc_merge_node_matched by (apply Hall; left).
  apply IH. intros node' Hin. apply Hall. by right.
Qed.

Lemma merge_edge_rels_prefix e st :
  rels st `prefix_of` rels (Cypher.merge_edge e st).
Proof.
  destruct (merge_rows_adds (EdgeObj.type e) (Cypher.edge_key e)
              (Cypher.edge_rows e st) st) as (added & Hrels & _).
  unfold Cypher.merge_edge. rewrite Hrels. by apply prefix_app_r.
Qed.

Lemma merge_edges_rels_prefix (edgesList : list EdgeObj.t) : ∀ st,
  rels st `prefix_of`
    rels (foldl (fun st e => Cypher.merge_edge e st) st edgesList).
Proof.
  induction edgesList as [|e edgesList IH]; intros st; [reflexivity|].
  cbn. etrans; [apply (merge_edge_rels_prefix e)|apply IH].
Qed.

Lemma merge_edge_matched e st a b :
  (a, b) ∈ Cypher.edge_rows e st →
  Exists (rel_matches a (EdgeObj.type e) (Cypher.edge_key e) b)
         (rels (Cypher.merge_edge e st)).
Proof.
  intros Hrow. apply count_rels_pos. unfold Cypher.merge_edge.
  rewrite merge_rows_count, decide_True by exact Hrow. lia.
Qed.

(** After the edge write every row of every item of the list has its
    relationship. *)
Lemma merge_edges_all_matched (edgesList : list EdgeObj.t) : ∀ st e a b,
  e ∈ edgesList →
  (a, b) ∈ Cypher.edge_rows e st →
  Exists (rel_matches a (EdgeObj.type e) (Cypher.edge_key e) b)
         (rels (foldl (fun st e => Cypher.merge_edge e st) st edgesList)).
Proof.
  induction edgesList as [|e0 edgesList IH]; intros st e a b Hin Hrow.
  - by apply elem_of_nil in Hin.
  - cbn. apply elem_of_cons in Hin as [->|Hin].
    + eapply Exists_prefix; [apply merge_edges_rels_prefix|].
      by apply merge_edge_matched.
    + apply IH; [exact Hin|].
      by rewrite (edge_rows_nodes e _ st) by apply merge_edge_nodes.
Qed.

Lemma merge_edges_fixed (edgesList : list EdgeObj.t) st :
  (∀ e a b, e ∈ edgesList → (a, b) ∈ Cypher.edge_rows e st →
     Exists (rel_matches a (EdgeObj.type e) (Cypher.edge_key e) b) (rels st)) →
  foldl (fun st e => Cypher.merge_edge e st) st edgesList = st.
Proof.
  induction edgesList as [|e edgesList IH]; intros Hall; [reflexivity|].
  cbn. assert (Cypher.merge_edge e st = st) as ->.
  { unfold Cypher.merge_edge. apply merge_rows_fixed.
    intros [a b] Hrow. cbn [fst snd]. apply (Hall e a b); [left | exact Hrow]. }
  apply IH. intros e' a b Hin Hrow. apply Hall; [by right | exact Hrow].
Qed.

End WriterRepeats.

(** X5: a call of [save_graph] that is run again with the same lists and the
    same manager changes nothing more: the store after the second run is
    the store after the first, whatever the lists hold and whatever was
    stored before. *)
Theorem save_graph_twice_is_once
    (self : Neo4jManager.t) (nodeList : list NodeObj.t)
    (edgesList : list EdgeObj.t) (s : Session.State) :
  let once := Session.exec (Neo4jManager.save_graph self nodeList edgesList) s in
  Session.db
    (Session.exec (Neo4jManager.save_graph self nodeList edgesList) once)
  = Session.db once.
Proof.
  cbn zeta. rewrite (db_save_graph self nodeList edgesList (Session.exec _ s)).
  rewrite db_save_graph.
  set (st1 := foldl _ (Session.db s) nodeList).
  set (st2 := foldl _ st1 edgesList).
  assert (Graph.nodes st2 = Graph.nodes st1) as Hnodes
    by apply merge_edges_nodes.
  rewrite merge_nodes_fixed.
  - apply merge_edges_fixed. intros e a b Hin Hrow.
    apply merge_edges_all_matched; [exact Hin|].
    by rewrite <- (edge_rows_nodes e st2 st1 Hnodes).
  - intros node Hin. rewrite Hnodes. by apply merge_nodes_all_matched.
Qed.

(** X6: the nodes of a call are written before its edges. When an edge of
    the call names as source and as target the [node_id] of two nodes of
    the same call, the store holds after the call a relationship of the
    edge's type and scope text from a node that carries the first node's
    attributes to a node that carries the second's. *)
Theorem edge_links_nodes_of_the_same_call
    (self : Neo4jManager.t) (nodeList : list NodeObj.t)
    (edgesList : list EdgeObj.t) (s : Session.State)
    (e : EdgeObj.t) (source target : NodeObj.t) :
  let repoId := Neo4jManager.repo_id self in
  let entityId := Neo4jManager.entity_id self in
  let st' :=
    Session.db
      (Session.exec (Neo4jManager.save_graph self nodeList edgesList) s) in
  e ∈ edgesList →
  source ∈ nodeList →
  target ∈ nodeList →
  NodeObj.attributes source !! "node_id"
  = Some (Graph.VStr (EdgeObj.sourceId e)) →
  NodeObj.attributes target !! "node_id"
  = Some (Graph.VStr (EdgeObj.targetId e)) →
  ∃ r p p2,
    r ∈ Graph.rels st'
    ∧ Graph.rel_type r = EdgeObj.type e
    ∧ Graph.rel_properties r !! "scopeText"
      = Some (Graph.VStr (EdgeObj.scopeText e))
    ∧ Graph.nodes st' !! Graph.start_node r = Some p
    ∧ Cypher.map_merge (NodeObj.attributes source) repoId entityId
      ⊆ Graph.properties p
    ∧ Graph.nodes st' !! Graph.end_node r = Some p2
    ∧ Cypher.map_merge (NodeObj.attributes target) repoId entityId
      ⊆ Graph.properties p2.
Proof.
  intros repoId entityId st' He Hsrc Htgt Hsid Htid. subst st'.
  rewrite db_save_graph. fold repoId entityId.
  set (st1 := foldl _ (Session.db s) nodeList).
  set (st2 := foldl _ st1 edgesList).
  assert (Graph.nodes st2 = Graph.nodes st1) as Hnodes
    by apply merge_edges_nodes.
  assert (∀ node id,
            node ∈ nodeList →
            NodeObj.attributes node !! "node_id" = Some (Graph.VStr id) →
            ∃ i p, Graph.nodes st1 !! i = Some p
                   ∧ Cypher.map_merge (NodeObj.attributes node) repoId entityId
                     ⊆ Graph.properties p
                   ∧ i ∈ Graph.match_nodes ["NODE"]
                           {["node_id" := Graph.VStr id]} st1) as Hstored.
  { intros node id Hin Hid.
    pose proof (merge_nodes_all_matched repoId entityId nodeList
                  (Session.db s) node Hin) as Hex.
    fold st1 in Hex. apply Exists_exists in Hex as (p & Hp & Hl & Hps).
    apply list_elem_of_lookup in Hp as [i Hi]. exists i, p.
    split; [exact Hi|]. split; [exact Hps|].
    apply match_nodes_spec. exists p. split; [exact Hi|].
    apply endpoint_matches. split.
    - apply Hl. unfold Cypher.node_labels. apply elem_of_app. right.
      apply list_elem_of_further, list_elem_of_here.
    - eapply lookup_weaken; [|exact Hps]. unfold Cypher.map_merge.
      rewrite !lookup_insert_ne by discriminate. exact Hid. }
  destruct (Hstored source _ Hsrc Hsid) as (a & p & Hp & Hpsub & Ha).
  destruct (Hstored target _ Htgt Htid) as (b & p2 & Hp2 & Hp2sub & Hb).
  assert ((a, b) ∈ Cypher.edge_rows e st1) as Hrow
    by (apply edge_rows_spec; split; assumption).
  pose proof (merge_edges_all_matched edgesList st1 e a b He Hrow) as Hex.
  fold st2 in Hex.
  apply Exists_exists in Hex as (r & Hr & Hstart & Hty & Hkey & Hend).
  exists r, p, p2. rewrite Hnodes, Hstart, Hend.
  split; [exact Hr|]. split; [exact Hty|]. split.
  - eapply lookup_weaken; [|exact Hkey].
    unfold Cypher.edge_key. apply lookup_singleton_eq.
  - repeat (split; [assumption|]). assumption.
Qed.

(** The theorem above for the functions [a] and [b] and the call from [a]
    to [b], written in one call into the empty store. *)
Lemma edge_links_nodes_of_the_same_call_witness :
  ∃ r p p2,
    r ∈ Graph.rels
          (Session.db
             (Session.exec
                (Neo4jManager.save_graph Sample.tenant1
                   [Sample.function_node "a" "mine";
                    Sample.function_node "b" "mine"]
                   [Sample.calls "a" "b"])
                Sample.s0))
    ∧ Graph.rel_type r = "CALLS"
    ∧ Graph.nodes
        (Session.db
           (Session.exec
              (Neo4jManager.save_graph Sample.tenant1
                 [Sample.function_node "a" "mine";
                  Sample.function_node "b" "mine"]
                 [Sample.calls "a" "b"])
              Sample.s0)) !! Graph.start_node r = Some p
    ∧ Graph.nodes
        (Session.db
           (Session.exec
              (Neo4jManager.save_graph Sample.tenant1
                 [Sample.function_node "a" "mine";
                  Sample.function_node "b" "mine"]
                 [Sample.calls "a" "b"])
              Sample.s0)) !! Graph.end_node r = Some p2.
Proof.
  destruct (edge_links_nodes_of_the_same_call Sample.tenant1
              [Sample.function_node "a" "mine"; Sample.function_node "b" "mine"]
              [Sample.calls "a" "b"] Sample.s0 (Sample.calls "a" "b")
              (Sample.function_node "a" "mine")
              (Sample.function_node "b" "mine"))
    as (r & p & p2 & Hr & Hty & _ & Hp & _ & Hp2 & _).
  - apply list_elem_of_here.
  - apply list_elem_of_here.
  - apply list_elem_of_further, list_elem_of_here.
  - vm_compute. reflexivity.
  - vm_compute. reflexivity.
  - exists r, p, p2. repeat (split; [assumption|]). assumption.
Defined.

(** ** Reading back *)

Section ReadBack.
Import Graph Session.

Lemma neighbors_nil (v : value) (st : Store) :
  (∀ r p, r ∈ rels st → nodes st !! start_node r = Some p →
          properties p !! "node_id" ≠ Some v) →
  Cypher.neighbors (Some v) st = [].
Proof.
  unfold Cypher.neighbors. intros Hnone.
  induction (rels st) as [|r l IH]; [reflexivity|].
  cbn [mbind list_bind]. rewrite IH; [|intros r' p Hin; apply Hnone; by right].
  rewrite app_nil_r.
  destruct (nodes st !! start_node r) as [p|] eqn:Hp; [|reflexivity].
  destruct (nodes st !! end_node r) as [p2|]; [|reflexivity].
  rewrite decide_False; [reflexivity|].
  apply (Hnone r p); [left | exact Hp].
Qed.

Lemma tagged_lookup attributes repoId entityId (k : string) :
  k ≠ "repoId" → k ≠ "entityId" →
  Cypher.map_merge attributes repoId entityId !! k = attributes !! k.
Proof.
  intros H1 H2. unfold Cypher.map_merge.
  by rewrite !lookup_insert_ne by congruence.
Qed.

(** A node whose [node_id] no stored node has is added by its write. *)
Lemma merge_node_new_id repoId entityId node id st :
  NodeObj.attributes node !! "node_id" = Some (VStr id) →
  Forall (fun n => properties n !! "node_id" ≠ Some (VStr id)) (nodes st) →
  nodes (Cypher.merge_node repoId entityId node st)
  = nodes st ++ [Cypher.created_node repoId entityId node].
Proof.
  intros Hid Hnew. unfold Cypher.merge_node.
  apply apoc_merge_node_fresh.
  eapply Forall_impl; [exact Hnew|]. intros n Hn.
  apply (changed_attribute_no_match _ _ _ "node_id" (VStr id)); [|exact Hn].
  rewrite tagged_lookup by discriminate. exact Hid.
Qed.

End ReadBack.

(** X7: a node whose [node_id] no stored node has is written alone into a
    store in which every relationship has its two nodes, and is then read
    by that [node_id], by any manager. The read returns the [name], the
    [node_path], the lines and the [text] of the written attribute map, and
    no neighbour. *)
Theorem written_node_is_read_back
    (writer reader : Neo4jManager.t) (s : Session.State) (N : NodeObj.t)
    (id : string) :
  NodeObj.attributes N !! "node_id" = Some (Graph.VStr id) →
  Forall (fun n => Graph.properties n !! "node_id" ≠ Some (Graph.VStr id))
         (Graph.nodes (Session.db s)) →
  Invariant.wf (Session.db s) →
  Session.eval (Neo4jManager.get_node_by_id reader id)
    (Session.exec (Neo4jManager.save_graph writer [N] []) s)
  = (Some {| NodeResult.node_id := Some (Graph.VStr id);
             NodeResult.name := NodeObj.attributes N !! "name";
             NodeResult.node_path := NodeObj.attributes N !! "node_path";
             NodeResult.start_line := NodeObj.attributes N !! "start_line";
             NodeResult.end_line := NodeObj.attributes N !! "end_line";
             NodeResult.text := NodeObj.attributes N !! "text" |},
     []).
Proof.
  intros Hid Hnew Hwf. unfold Session.eval. rewrite get_node_by_id_run.
  rewrite db_save_graph. cbn [foldl].
  set (repoId := Neo4jManager.repo_id writer).
  set (entityId := Neo4jManager.entity_id writer).
  pose proof (merge_node_new_id repoId entityId N id (Session.db s) Hid Hnew)
    as Hnodes.
  assert (Graph.rels (Cypher.merge_node repoId entityId N (Session.db s))
          = Graph.rels (Session.db s)) as Hrels
    by apply apoc_merge_node_rels.
  set (st' := Cypher.merge_node repoId entityId N (Session.db s)) in *.
  assert (Cypher.node_by_id id st'
          = [Cypher.map_merge (NodeObj.attributes N) repoId entityId]) as ->.
  { unfold Cypher.node_by_id. rewrite Hnodes, filter_app.
    rewrite filter_none by exact Hnew.
    rewrite filter_cons_True; [reflexivity|].
    cbn [Cypher.created_node Graph.properties].
    rewrite tagged_lookup by discriminate. exact Hid. }
  rewrite neighbors_nil.
  - cbn [fst fmap list_fmap]. unfold Neo4jManager.node_of_data.
    rewrite !tagged_lookup by discriminate. by rewrite Hid.
  - intros r p Hr Hp. rewrite Hrels in Hr. rewrite Hnodes in Hp.
    unfold Invariant.wf in Hwf. rewrite Forall_forall in Hwf.
    destruct (Hwf r Hr) as [Hstart _].
    rewrite lookup_app_l in Hp by exact Hstart.
    rewrite Forall_forall in Hnew. apply Hnew.
    eapply list_elem_of_lookup_2. exact Hp.
Qed.

(** The theorem above for the function [b], written by one manager into a
    store that holds [a] and read by another. *)
Lemma written_node_is_read_back_witness :
  Session.eval (Neo4jManager.get_node_by_id Sample.tenant2 "b")
    (Session.exec
       (Neo4jManager.save_graph Sample.tenant1
          [Sample.function_node "b" "mine"] [])
       (Session.exec
          (Neo4jManager.save_graph Sample.tenant1
             [Sample.function_node "a" "mine"] [Sample.calls "a" "a"])
          Sample.s0))
  = (Some {| NodeResult.node_id := Some (Graph.VStr "b");
             NodeResult.name :=
               NodeObj.attributes (Sample.function_node "b" "mine") !! "name";
             NodeResult.node_path :=
               NodeObj.attributes (Sample.function_node "b" "mine")
                 !! "node_path";
             NodeResult.start_line :=
               NodeObj.attributes (Sample.function_node "b" "mine")
                 !! "start_line";
             NodeResult.end_line :=
               NodeObj.attributes (Sample.function_node "b" "mine")
                 !! "end_line";
             NodeResult.text :=
               NodeObj.attributes (Sample.function_node "b" "mine") !! "text" |},
     []).
Proof.
  apply (written_node_is_read_back Sample.tenant1 Sample.tenant2 _
           (Sample.function_node "b" "mine") "b").
  - vm_compute. reflexivity.
  - apply (bool_decide_unpack _). vm_compute. exact I.
  - apply (bool_decide_unpack _). vm_compute. exact I.
Defined.



(** ** Neighbours *)

Section Neighbours.
Import Graph Session.

Lemma neighbors_types (v : value) (st : Store) (l : list StoredRel) :
  Forall (fun r => start_node r < List.length (nodes st)
                   ∧ end_node r < List.length (nodes st)) l →
  Cypher.relationship_type
    <$> (l ≫= fun r =>
           match nodes st !! start_node r, nodes st !! end_node r with
           | Some p, Some p2 =>
               if decide (properties p !! "node_id" = Some v)
               then [ {| Cypher.relationship_type := rel_type r;
                         Cypher.node_id := properties p2 !! "node_id";
                         Cypher.node_name := properties p2 !! "name";
                         Cypher.node_type := labels p2 |} ]
               else []
           | _, _ => []
           end)
  = rel_type <$> filter (Invariant.leaves v st) l.
Proof.
  induction 1 as [|r l [Ha Hb] _ IH]; [reflexivity|].
  cbn [mbind list_bind]. rewrite fmap_app, IH.
  apply lookup_lt_is_Some_2 in Ha as [p Hp].
  apply lookup_lt_is_Some_2 in Hb as [p2 Hp2].
  rewrite Hp, Hp2.
  destruct (decide (properties p !! "node_id" = Some v)) as [Hv|Hv].
  - rewrite filter_cons_True; [reflexivity|].
    unfold Invariant.leaves. rewrite Hp. exact Hv.
  - rewrite filter_cons_False; [reflexivity|].
    unfold Invariant.leaves. rewrite Hp. exact Hv.
Qed.

End Neighbours.

(** X9: in a store in which every relationship has its two nodes, the
    expansion of a [node_id] gives one entry for each relationship that
    starts at a node with that [node_id], in the order of the store and
    with the type of that relationship: two relationships to one target
    give two entries. *)
Theorem one_neighbour_for_each_relationship
    (self : Neo4jManager.t) (s : Session.State) (v : Graph.value) :
  Invariant.wf (Session.db s) →
  NeighborResult.relationship_type
    <$> Session.eval
          (Neo4jManager.get_1_hop_neighbors_and_relations self (Some v)) s
  = Graph.rel_type
      <$> filter (Invariant.leaves v (Session.db s))
                 (Graph.rels (Session.db s)).
Proof.
  intros Hwf.
  rewrite <- (neighbors_types v (Session.db s) _ Hwf).
  unfold Session.eval, Neo4jManager.get_1_hop_neighbors_and_relations.
  unfold mbind at 1. unfold session_bind, Session.bind, Session.query,
    Session.run. cbn [fst snd mret session_ret Session.ret].
  rewrite <- list_fmap_compose. reflexivity.
Qed.

(** The theorem above for a node with two relationships to the same target. *)
Lemma one_neighbour_for_each_relationship_witness :
  NeighborResult.relationship_type
    <$> Session.eval
          (Neo4jManager.get_1_hop_neighbors_and_relations Sample.tenant1
             (Some (Graph.VStr "a")))
          (Session.exec
             (Neo4jManager.save_graph Sample.tenant1
                [Sample.function_node "a" "mine";
                 Sample.function_node "b" "mine"]
                [Sample.calls "a" "b";
                 {| EdgeObj.sourceId := "a"; EdgeObj.targetId := "b";
                    EdgeObj.type := "USES"; EdgeObj.scopeText := "use" |}])
             Sample.s0)
  = ["CALLS"; "USES"].
Proof.
  rewrite (one_neighbour_for_each_relationship Sample.tenant1 _
             (Graph.VStr "a")).
  - vm_compute. reflexivity.
  - apply (bool_decide_unpack _). vm_compute. exact I.
Defined.

(** ** The scope of the text search *)

Section SearchScope.
Import Graph Session.

Variable queryNodes : Store → string → list StoredNode.

Lemma fulltext_head (text repoId : string) (st : Store)
    (row : Cypher.FulltextRow) :
  head (Cypher.fulltext queryNodes text repoId st) = Some row →
  ∃ node, node ∈ queryNodes st text
          ∧ properties node !! "repoId" = Some (VStr repoId)
          ∧ row = Cypher.fulltext_row node.
Proof.
  intros Hhead. apply head_Some_elem_of in Hhead.
  unfold Cypher.fulltext in Hhead.
  apply list_elem_of_fmap in Hhead as (node & -> & Hin).
  apply list_elem_of_filter in Hin as [Hrepo Hin].
  exists node. split; [exact Hin|]. split; [exact Hrepo | reflexivity].
Qed.

(** The node the text search returns is the first row of the first attempt
    that has one. *)
Lemma search_nodes_by_text_node (self : Neo4jManager.t) (query : string)
    (s : State) :
  let escaped := Escaper._format_query query in
  let attempt text :=
    head (Cypher.fulltext queryNodes text (Neo4jManager.repo_id self) (db s)) in
  (eval (Neo4jManager.search_nodes_by_text queryNodes self query) s).1
  = Neo4jManager.node_of_row
      <$> match attempt ("*" +:+ escaped +:+ "*") with
          | Some row => Some row
          | None => attempt escaped
          end.
Proof.
  intros escaped attempt. subst attempt. cbv beta.
  unfold eval, Neo4jManager.search_nodes_by_text, Neo4jManager.run_node_query.
  unfold Neo4jManager.get_1_hop_neighbors_and_relations.
  unfold Neo4jManager._format_query.
  unfold mbind, mret, session_bind, session_ret.
  unfold Session.bind, Session.ret, Session.query, Session.run.
  fold escaped. cbn [db log].
  destruct (head (Cypher.fulltext queryNodes ("*" +:+ escaped +:+ "*") _ _))
    as [row|]; [reflexivity|].
  cbn [db log].
  destruct (head (Cypher.fulltext queryNodes escaped _ _)) as [row|];
    reflexivity.
Qed.

End SearchScope.

(** X10: the node a text search returns is a hit of the index, for the
    escaped text between wildcards or for the escaped text, whose [repoId]
    is that of the manager: a node of another repository is never the
    result, whatever the index answers. *)
Theorem search_result_is_in_the_callers_repo
    (queryNodes : Graph.Store → string → list Graph.StoredNode)
    (self : Neo4jManager.t) (query : string) (s : Session.State)
    (result : NodeResult.t) :
  let escaped := Escaper._format_query query in
  (Session.eval (Neo4jManager.search_nodes_by_text queryNodes self query) s).1
  = Some result →
  ∃ node text,
    (text = "*" +:+ escaped +:+ "*" ∨ text = escaped)
    ∧ node ∈ queryNodes (Session.db s) text
    ∧ Graph.properties node !! "repoId"
      = Some (Graph.VStr (Neo4jManager.repo_id self))
    ∧ result = Neo4jManager.node_of_row (Cypher.fulltext_row node).
Proof.
  intros escaped Hresult. rewrite search_nodes_by_text_node in Hresult.
  fold escaped in Hresult.
  destruct (head (Cypher.fulltext queryNodes ("*" +:+ escaped +:+ "*") _ _))
    as [row|] eqn:Hwild.
  - apply fulltext_head in Hwild as (node & Hin & Hrepo & ->).
    injection Hresult as <-. exists node, ("*" +:+ escaped +:+ "*").
    split; [by left|]. split; [exact Hin|]. split; [exact Hrepo | reflexivity].
  - destruct (head (Cypher.fulltext queryNodes escaped _ _))
      as [row|] eqn:Hexact; [|discriminate Hresult].
    apply fulltext_head in Hexact as (node & Hin & Hrepo & ->).
    injection Hresult as <-. exists node, escaped.
    split; [by right|]. split; [exact Hin|]. split; [exact Hrepo | reflexivity].
Qed.

(** The theorem above for an index that holds the function [b] of two
    repositories, asked by the manager of the second. *)
Lemma search_result_is_in_the_callers_repo_witness :
  ∃ node text,
    (text = "*" +:+ Escaper._format_query "b" +:+ "*"
     ∨ text = Escaper._format_query "b")
    ∧ Graph.properties node !! "repoId" = Some (Graph.VStr "r2").
Proof.
  destruct (search_result_is_in_the_callers_repo Sample.exact_index
              Sample.tenant2 "b"
              (Session.exec
                 (Neo4jManager.save_graph Sample.tenant1
                    [Sample.function_node "b" "mine"] [] ;;
                  Neo4jManager.save_graph Sample.tenant2
                    [Sample.function_node "b" "theirs"] [])
                 Sample.s0)
              (Neo4jManager.node_of_row
                 (Cypher.fulltext_row
                    (Cypher.created_node "r2" "e2"
                       (Sample.function_node "b" "theirs")))))
    as (node & text & Htext & _ & Hrepo & _).
  - vm_compute. reflexivity.
  - exists node, text. split; [exact Htext | exact Hrepo].
Defined.

(** X11: the tool's [search_nodes_by_text] returns a string whatever the
    search gives, and the string is the sentence for no code exactly when
    the search returns no node: the text for a hit starts with other
    words. *)
Theorem tool_search_gives_the_sentence_exactly_on_a_miss
    (queryNodes : Graph.Store → string → list Graph.StoredNode)
    (str_text : option Graph.value → string)
    (str_neighbours : list NeighborResult.t → string)
    (db_manager : Neo4jManager.t) (query : string) (s : Session.State) :
  let answer :=
    Session.eval
      (GraphQueryTool.search_nodes_by_text queryNodes str_text str_neighbours
         db_manager query) s in
  (∃ text, answer = GraphQueryTool.PyStr text)
  ∧ (answer = GraphQueryTool.PyStr GraphQueryTool.no_code_found
     ↔ (Session.eval
          (Neo4jManager.search_nodes_by_text queryNodes db_manager query) s).1
       = None).
Proof.
  cbn zeta. unfold Session.eval, GraphQueryTool.search_nodes_by_text.
  unfold mbind, session_bind, Session.bind.
  destruct (Neo4jManager.search_nodes_by_text queryNodes db_manager query s)
    as [[[code|] neighbours] s']; cbn.
  - split; [eexists; reflexivity|]. split; discriminate.
  - split; [eexists; reflexivity|]. split; reflexivity.
Qed.

(** ** More on the connector *)

(** X12: only [ServiceUnavailable] is retried. When the driver raises
    another exception at attempt [k < 3], after being unavailable at the
    attempts before, that exception is raised at once: no sleep follows the
    attempt, no further attempt is made and no index is created. *)
Theorem other_driver_errors_are_raised_at_once
    (driver : nat → option Session.Exn)
    (schema : Session.Statement → option Session.Exn)
    (repo_id entity_id : option string)
    (s : Session.State) (k : nat) (e : Session.Exn) :
  k < 3 →
  (∀ j, j < k → driver j = Some Session.ServiceUnavailable) →
  driver k = Some e →
  e ≠ Session.ServiceUnavailable →
  Neo4jManager.__init__ driver schema repo_id entity_id s
  = (inl e,
     {| Session.db := Session.db s;
        Session.log :=
          Session.log s
          ++ flat_map (fun j => [Session.Connect j; Session.Sleep (2 ^ j)])
                      (seq 0 k)
          ++ [Session.Connect k] |}).
Proof.
  intros Hk Hbefore Hnow Hother. run_init.
  destruct k as [|[|[|k]]]; [| | |lia].
  - rewrite Hnow. destruct e; [congruence| |]; reflexivity.
  - rewrite (Hbefore 0) by lia. cbn. rewrite Hnow.
    destruct e; [congruence| |]; cbn; by rewrite <- ?app_assoc.
  - rewrite (Hbefore 0) by lia. cbn. rewrite (Hbefore 1) by lia. cbn.
    rewrite Hnow. destruct e; [congruence| |]; cbn; by rewrite <- ?app_assoc.
Qed.

(** The theorem above for a driver that is unavailable once and then fails
    with another error. *)
Lemma other_driver_errors_are_raised_at_once_witness :
  Neo4jManager.__init__
    (fun attempt => if attempt =? 0 then Some Session.ServiceUnavailable
                    else Some (Session.OtherError "AuthError"))
    (fun _ => None)
    None None Sample.s0
  = (inl (Session.OtherError "AuthError"),
     {| Session.db := Session.db Sample.s0;
        Session.log :=
          Session.log Sample.s0
          ++ flat_map (fun j => [Session.Connect j; Session.Sleep (2 ^ j)])
                      (seq 0 1)
          ++ [Session.Connect 1] |}).
Proof.
  apply (other_driver_errors_are_raised_at_once _ _ None None Sample.s0 1
           (Session.OtherError "AuthError")).
  - lia.
  - intros j Hj. destruct j; [reflexivity | lia].
  - reflexivity.
  - discriminate.
Defined.


(** ** Deleting by path *)

Section DeleteByPath.
Import Graph Session.

Lemma filter_all {A} (P : A → Prop) `{!∀ x, Decision (P x)} (l : list A) :
  Forall P l → filter P l = l.
Proof.
  induction 1 as [|x l Hx _ IH]; [reflexivity|].
  by rewrite filter_cons_True, IH.
Qed.

(** An element that passes a filter is found in the filtered list at the
    number of elements before it that pass. *)
Lemma filter_lookup {A} (P : A → Prop) `{!∀ x, Decision (P x)} (l : list A)
    (i : nat) (x : A) :
  l !! i = Some x → P x →
  filter P l !! List.length (filter P (take i l)) = Some x.
Proof.
  intros Hi Hx. set (k := List.length (filter P (take i l))).
  rewrite <- (take_drop_middle l i x Hi).
  rewrite filter_app, filter_cons_True by exact Hx.
  rewrite lookup_app_r by (subst k; lia).
  subst k. by rewrite Nat.sub_diag.
Qed.

Lemma stays_lookup path st i :
  Deletion.stays path st i
  ↔ ∃ n, nodes st !! i = Some n ∧ Deletion.kept path n.
Proof.
  unfold Deletion.stays. destruct (nodes st !! i) as [n|].
  - split; [intros H; by exists n | by intros (n' & [= ->] & H)].
  - split; [intros [] | by intros (n' & ? & _)].
Qed.

(** A node that stays is found at its new position. *)
Lemma new_position_lookup path st i n :
  nodes st !! i = Some n → Deletion.kept path n →
  nodes (Deletion.detach_delete path st) !! Deletion.new_position path st i
  = Some n.
Proof. intros Hi Hn. by apply filter_lookup. Qed.

(** The relationships after a deletion are the stored relationships between
    nodes that stay, brought to the new positions of their nodes. *)
Lemma detach_delete_rels path st r' :
  r' ∈ rels (Deletion.detach_delete path st)
  ↔ ∃ r, r ∈ rels st
         ∧ Deletion.stays path st (start_node r)
         ∧ Deletion.stays path st (end_node r)
         ∧ r' = {| start_node := Deletion.new_position path st (start_node r);
                   rel_type := rel_type r;
                   rel_properties := rel_properties r;
                   end_node := Deletion.new_position path st (end_node r) |}.
Proof.
  unfold Deletion.detach_delete. cbn [rels]. rewrite list_elem_of_omap.
  split.
  - intros (r & Hr & Hsome). exists r. split; [exact Hr|].
    case_decide as Hst; [|discriminate Hsome].
    destruct Hst as [Ha Hb]. injection Hsome as <-.
    split; [exact Ha|]. split; [exact Hb | reflexivity].
  - intros (r & Hr & Ha & Hb & ->). exists r. split; [exact Hr|].
    by rewrite decide_True.
Qed.

Lemma detach_delete_wf path st :
  Invariant.wf (Deletion.detach_delete path st).
Proof.
  unfold Invariant.wf. apply Forall_forall. intros r' Hr'.
  apply detach_delete_rels in Hr' as (r & _ & Ha & Hb & ->).
  apply stays_lookup in Ha as (p & Hp & Hpk).
  apply stays_lookup in Hb as (p2 & Hp2 & Hp2k).
  cbn [start_node end_node].
  split; eapply lookup_lt_Some; by apply new_position_lookup.
Qed.

Lemma detach_delete_nothing path st :
  Invariant.wf st →
  Forall (Deletion.kept path) (nodes st) →
  Deletion.detach_delete path st = st.
Proof.
  intros Hwf Hall.
  assert (∀ i, i < List.length (nodes st) →
               Deletion.new_position path st i = i) as Hpos.
  { intros i Hi. unfold Deletion.new_position.
    rewrite filter_all; [rewrite length_take; lia|].
    by apply Forall_take. }
  assert (∀ i, i < List.length (nodes st) → Deletion.stays path st i) as Hstay.
  { intros i Hi. apply stays_lookup.
    apply lookup_lt_is_Some_2 in Hi as [n Hn]. exists n. split; [exact Hn|].
    rewrite Forall_forall in Hall. apply Hall.
    by eapply list_elem_of_lookup_2. }
  unfold Deletion.detach_delete. rewrite filter_all by exact Hall.
  unfold Invariant.wf in Hwf.
  assert (∀ l : list StoredRel,
            Forall (fun r => start_node r < List.length (nodes st)
                             ∧ end_node r < List.length (nodes st)) l →
            omap (fun r =>
                    if decide (Deletion.stays path st (start_node r)
                               ∧ Deletion.stays path st (end_node r))
                    then Some {| start_node :=
                                   Deletion.new_position path st (start_node r);
                                 rel_type := rel_type r;
                                 rel_properties := rel_properties r;
                                 end_node :=
                                   Deletion.new_position path st (end_node r) |}
                    else None) l
            = l) as Hrels.
  { induction 1 as [|r l [Ha Hb] _ IH]; [reflexivity|].
    cbn [omap list_omap]. rewrite decide_True by (split; by apply Hstay).
    rewrite !Hpos by assumption. rewrite IH. by destruct r. }
  rewrite Hrels by exact Hwf. by destruct st.
Qed.

End DeleteByPath.

(** X14: deleting by path keeps every relationship between two nodes that
    stay: after the deletion a relationship with the same type and
    properties joins the same two nodes, found at their new positions. *)
Theorem deletion_keeps_relationships_between_kept_nodes
    (self : Neo4jManager.t) (path : string) (s : Session.State)
    (r : Graph.StoredRel) (p p2 : Graph.StoredNode) :
  let st := Session.db s in
  let st' :=
    Session.db
      (Session.exec (Deletion.detatch_delete_nodes_with_path self path) s) in
  r ∈ Graph.rels st →
  Graph.nodes st !! Graph.start_node r = Some p →
  Graph.nodes st !! Graph.end_node r = Some p2 →
  Graph.properties p !! "path" ≠ Some (Graph.VStr path) →
  Graph.properties p2 !! "path" ≠ Some (Graph.VStr path) →
  ∃ r',
    r' ∈ Graph.rels st'
    ∧ Graph.rel_type r' = Graph.rel_type r
    ∧ Graph.rel_properties r' = Graph.rel_properties r
    ∧ Graph.nodes st' !! Graph.start_node r' = Some p
    ∧ Graph.nodes st' !! Graph.end_node r' = Some p2.
Proof.
  intros st st' Hr Hp Hp2 Hkp Hkp2. subst st st'.
  unfold Session.exec, Deletion.detatch_delete_nodes_with_path.
  cbn [snd Session.db].
  eexists. split.
  - apply detach_delete_rels. exists r. split; [exact Hr|].
    split; [apply stays_lookup; by exists p|].
    split; [apply stays_lookup; by exists p2 | reflexivity].
  - cbn [Graph.rel_type Graph.rel_properties Graph.start_node Graph.end_node].
    split; [reflexivity|]. split; [reflexivity|].
    split; by apply new_position_lookup.
Qed.

(** The theorem above for the import of [a] by itself when the path of [b]
    and [c] is deleted. *)
Lemma deletion_keeps_relationships_between_kept_nodes_witness :
  ∃ r',
    r' ∈ Graph.rels
           (Session.db
              (Session.exec
                 (Deletion.detatch_delete_nodes_with_path Sample.tenant1
                    "src/b.py")
                 Files.three_files))
    ∧ Graph.rel_type r' = "IMPORTS".
Proof.
  destruct (deletion_keeps_relationships_between_kept_nodes Sample.tenant1
              "src/b.py" Files.three_files
              {| Graph.start_node := 0; Graph.rel_type := "IMPORTS";
                 Graph.rel_properties :=
                   Cypher.edge_key (Files.imports "a" "a");
                 Graph.end_node := 0 |}
              (Cypher.created_node "r1" "e1" (Files.file_node "a" "src/a.py"))
              (Cypher.created_node "r1" "e1" (Files.file_node "a" "src/a.py")))
    as (r' & Hr' & Hty & _).
  - apply (bool_decide_unpack _). vm_compute. exact I.
  - vm_compute. reflexivity.
  - vm_compute. reflexivity.
  - vm_compute. discriminate.
  - vm_compute. discriminate.
  - exists r'. split; [exact Hr' | exact Hty].
Defined.

(** X15: after a deletion by path no node with that path is stored, in
    whatever partition it was, every relationship has its two nodes, and
    every relationship is one that was stored, between two nodes that
    stay: none is left that started or ended at a deleted node. *)
Theorem deletion_detaches_the_deleted_nodes
    (self : Neo4jManager.t) (path : string) (s : Session.State) :
  let st := Session.db s in
  let st' :=
    Session.db
      (Session.exec (Deletion.detatch_delete_nodes_with_path self path) s) in
  Forall (fun n => Graph.properties n !! "path" ≠ Some (Graph.VStr path))
         (Graph.nodes st')
  ∧ Invariant.wf st'
  ∧ Forall (fun r' =>
              ∃ r p p2,
                r ∈ Graph.rels st
                ∧ Graph.rel_type r' = Graph.rel_type r
                ∧ Graph.rel_properties r' = Graph.rel_properties r
                ∧ Graph.nodes st !! Graph.start_node r = Some p
                ∧ Graph.nodes st' !! Graph.start_node r' = Some p
                ∧ Graph.nodes st !! Graph.end_node r = Some p2
                ∧ Graph.nodes st' !! Graph.end_node r' = Some p2)
           (Graph.rels st').
Proof.
  intros st st'. subst st st'.
  unfold Session.exec, Deletion.detatch_delete_nodes_with_path.
  cbn [snd Session.db].
  split; [|split; [apply detach_delete_wf|]].
  - apply Forall_forall. intros n Hn. unfold Deletion.detach_delete in Hn.
    cbn [Graph.nodes] in Hn. by apply list_elem_of_filter in Hn as [Hk _].
  - apply Forall_forall. intros r' Hr'.
    apply detach_delete_rels in Hr' as (r & Hr & Ha & Hb & ->).
    apply stays_lookup in Ha as (p & Hp & Hpk).
    apply stays_lookup in Hb as (p2 & Hp2 & Hp2k).
    exists r, p, p2.
    cbn [Graph.rel_type Graph.rel_properties Graph.start_node Graph.end_node].
    split; [exact Hr|]. split; [reflexivity|]. split; [reflexivity|].
    split; [exact Hp|]. split; [by apply new_position_lookup|].
    split; [exact Hp2 | by apply new_position_lookup].
Qed.

(** X16: when every stored node with a given [node_id] has the deleted
    path, a read by that [node_id] after the deletion returns the pair of
    [None] and the empty list. *)
Theorem deleted_node_is_no_longer_read
    (self reader : Neo4jManager.t) (path id : string) (s : Session.State) :
  Forall (fun n => Graph.properties n !! "node_id" = Some (Graph.VStr id) →
                   Graph.properties n !! "path" = Some (Graph.VStr path))
         (Graph.nodes (Session.db s)) →
  Session.eval (Neo4jManager.get_node_by_id reader id)
    (Session.exec (Deletion.detatch_delete_nodes_with_path self path) s)
  = (None, []).
Proof.
  intros Hall. unfold Session.eval. rewrite get_node_by_id_run.
  unfold Session.exec, Deletion.detatch_delete_nodes_with_path.
  cbn [snd Session.db]. unfold Cypher.node_by_id.
  rewrite filter_none; [reflexivity|].
  apply Forall_forall. intros n Hn Hid.
  unfold Deletion.detach_delete in Hn. cbn [Graph.nodes] in Hn.
  apply list_elem_of_filter in Hn as [Hk Hn].
  rewrite Forall_forall in Hall. apply Hk. by apply Hall.
Qed.

(** The theorem above for the file [b] once its path is deleted. *)
Lemma deleted_node_is_no_longer_read_witness :
  Session.eval (Neo4jManager.get_node_by_id Sample.tenant1 "b")
    (Session.exec
       (Deletion.detatch_delete_nodes_with_path Sample.tenant1 "src/b.py")
       Files.three_files)
  = (None, []).
Proof.
  apply (deleted_node_is_no_longer_read Sample.tenant1 Sample.tenant1
           "src/b.py" "b" Files.three_files).
  apply (bool_decide_unpack _). vm_compute. exact I.
Defined.

(** X17: deleting by the same path a second time changes nothing, whatever
    the store; and on a store in which every relationship has its two
    nodes, deleting by a path that no stored node has changes nothing. *)
Theorem deletion_twice_is_once
    (self : Neo4jManager.t) (path : string) (s : Session.State) :
  let delete := Deletion.detatch_delete_nodes_with_path self path in
  Session.db (Session.exec delete (Session.exec delete s))
  = Session.db (Session.exec delete s)
  ∧ (Invariant.wf (Session.db s) →
     Forall (fun n => Graph.properties n !! "path" ≠ Some (Graph.VStr path))
            (Graph.nodes (Session.db s)) →
     Session.db (Session.exec delete s) = Session.db s).
Proof.
  cbn zeta. unfold Session.exec, Deletion.detatch_delete_nodes_with_path.
  cbn [snd Session.db]. split.
  - apply detach_delete_nothing; [apply detach_delete_wf|].
    apply Forall_forall. intros n Hn. unfold Deletion.detach_delete in Hn.
    cbn [Graph.nodes] in Hn. by apply list_elem_of_filter in Hn as [Hk _].
  - intros Hwf Hnone. by apply detach_delete_nothing.
Qed.

(** ** Texts the escaper leaves alone *)

Section EscaperIdentity.

Lemma replace_absent (old new : string) (s : string) :
  Text.occurs old s = false → Escaper.replace s old new = s.
Proof.
  unfold Escaper.replace. induction s as [|c s IH]; [reflexivity|].
  cbn [Text.occurs Escaper.replace_from].
  intros [Hprefix Hrest]%orb_false_iff. rewrite Hprefix.
  by rewrite IH.
Qed.

End EscaperIdentity.

(** X18: a query in which none of the special sequences occurs is returned
    by the escaper as it is. *)
Theorem plain_query_is_not_changed (query : string) :
  Forall (fun character => Text.occurs character query = false)
         Escaper.special_characters →
  Escaper._format_query query = query.
Proof.
  unfold Escaper._format_query.
  induction 1 as [|character l Habsent _ IH]; [reflexivity|].
  cbn [foldl]. by rewrite replace_absent.
Qed.

(** The theorem above for an identifier with an underscore and a dot. *)
Lemma plain_query_is_not_changed_witness :
  Escaper._format_query "parse_file.py" = "parse_file.py".
Proof.
  apply plain_query_is_not_changed.
  apply (bool_decide_unpack _). vm_compute. exact I.
Defined.

(** ** The report of a write *)

Section Report.
Import Graph Session.

(** The number of batches is the number of items over the batch size,
    rounded up. *)
Lemma chunks_fuel_length {A} (n : nat) :
  0 < n → ∀ fuel (l : list A),
    List.length l ≤ fuel →
    List.length l ≤ n * List.length (chunks_fuel fuel n l)
    ∧ n * List.length (chunks_fuel fuel n l) < List.length l + n.
Proof.
  intros Hn fuel. induction fuel as [|fuel IH]; intros l Hl.
  - destruct l; [cbn; lia | cbn in Hl; lia].
  - destruct l as [|x l]; [cbn; lia|].
    cbn [chunks_fuel]. rewrite length_cons with (l := chunks_fuel _ _ _).
    rewrite Nat.mul_succ_r.
    destruct (IH (drop n (x :: l))) as [Hlo Hhi].
    { rewrite length_drop. cbn in *. lia. }
    rewrite length_drop in Hlo, Hhi.
    set (k := List.length (chunks_fuel fuel n (drop n (x :: l)))) in *.
    cbn [List.length] in *.
    destruct (decide (S (List.length l) ≤ n)) as [Hshort|Hlong].
    + assert (k = 0) as -> by nia. lia.
    + lia.
Qed.

Lemma log_create_nodes (self : Neo4jManager.t) (nodeList : list NodeObj.t)
    (s : State) :
  log (exec (Neo4jManager.create_nodes self nodeList) s)
  = log s
    ++ [Run (MergeNodes nodeList 100 (Neo4jManager.repo_id self)
               (Neo4jManager.entity_id self));
        Info ("Created " +:+ pretty (List.length nodeList) +:+ " nodes");
        Print {| batches := List.length (chunks 100 nodeList);
                 total := List.length nodeList |}].
Proof.
  unfold exec, Neo4jManager.create_nodes, Neo4jManager._create_nodes_txn.
  unfold mbind, session_bind, Session.bind, run, Cypher.merge_nodes.
  unfold periodic_iterate. cbn. by rewrite <- !app_assoc.
Qed.

End Report.

(** X19: the node write logs its statement, the line with the number of
    items of the list, and the row of statistics; the row counts every
    item, and its number of batches is the number of items over 100,
    rounded up: none for the empty list. *)
Theorem node_write_reports_its_batches
    (self : Neo4jManager.t) (nodeList : list NodeObj.t) (s : Session.State) :
  ∃ b,
    Session.log (Session.exec (Neo4jManager.create_nodes self nodeList) s)
    = Session.log s
      ++ [Session.Run
            (Session.MergeNodes nodeList 100 (Neo4jManager.repo_id self)
               (Neo4jManager.entity_id self));
          Session.Info
            ("Created " +:+ pretty (List.length nodeList) +:+ " nodes");
          Session.Print {| Graph.batches := b;
                           Graph.total := List.length nodeList |}]
    ∧ List.length nodeList ≤ 100 * b
    ∧ 100 * b < List.length nodeList + 100.
Proof.
  exists (List.length (Graph.chunks 100 nodeList)).
  split; [apply log_create_nodes|].
  apply chunks_fuel_length; lia.
Qed.

(** X20: the batch size of a write decides its report and not its effect:
    with any two positive batch sizes the node write leaves the same store,
    and so does the edge write. *)
Theorem batch_size_does_not_change_the_store
    (nodeList : list NodeObj.t) (edgesList : list EdgeObj.t)
    (b1 b2 : nat) (repoId entityId : string) (s : Session.State) :
  0 < b1 →
  0 < b2 →
  Session.db
    (Session.exec (Neo4jManager._create_nodes_txn nodeList b1 repoId entityId) s)
  = Session.db
      (Session.exec
         (Neo4jManager._create_nodes_txn nodeList b2 repoId entityId) s)
  ∧ Session.db
      (Session.exec (Neo4jManager._create_edges_txn edgesList b1 entityId) s)
    = Session.db
        (Session.exec (Neo4jManager._create_edges_txn edgesList b2 entityId) s).
Proof.
  intros H1 H2.
  assert (∀ b, 0 < b →
            Session.db
              (Session.exec
                 (Neo4jManager._create_nodes_txn nodeList b repoId entityId) s)
            = foldl (fun st node => Cypher.merge_node repoId entityId node st)
                    (Session.db s) nodeList) as Hnodes.
  { intros b Hb. rewrite <- (periodic_iterate_store _ b) by exact Hb.
    unfold Session.exec, Neo4jManager._create_nodes_txn.
    unfold mbind, session_bind, Session.bind, Session.run, Cypher.merge_nodes.
    by destruct (Graph.periodic_iterate _ _ _ _). }
  assert (∀ b, 0 < b →
            Session.db
              (Session.exec
                 (Neo4jManager._create_edges_txn edgesList b entityId) s)
            = foldl (fun st e => Cypher.merge_edge e st)
                    (Session.db s) edgesList) as Hedges.
  { intros b Hb. rewrite <- (periodic_iterate_store _ b) by exact Hb.
    unfold Session.exec, Neo4jManager._create_edges_txn.
    unfold mbind, session_bind, Session.bind, Session.run, Cypher.merge_edges.
    by destruct (Graph.periodic_iterate _ _ _ _). }
  split; [by rewrite !Hnodes | by rewrite !Hedges].
Qed.

(** The theorem above for three nodes and two edges in batches of one and
    of two. *)
Lemma batch_size_does_not_change_the_store_witness :
  Session.db
    (Session.exec
       (Neo4jManager._create_nodes_txn
          [Sample.function_node "a" "x"; Sample.function_node "b" "x";
           Sample.function_node "c" "x"] 1 "r1" "e1") Sample.s0)
  = Session.db
      (Session.exec
         (Neo4jManager._create_nodes_txn
            [Sample.function_node "a" "x"; Sample.function_node "b" "x";
             Sample.function_node "c" "x"] 2 "r1" "e1") Sample.s0).
Proof.
  apply (batch_size_does_not_change_the_store
           [Sample.function_node "a" "x"; Sample.function_node "b" "x";
            Sample.function_node "c" "x"]
           [Sample.calls "a" "b"; Sample.calls "b" "c"]
           1 2 "r1" "e1" Sample.s0); lia.
Defined.

(** ** Partitions and the order of calls *)

(** X21: two managers that differ in their [repo_id] or in their
    [entity_id] write the same node into a store in which nothing matches
    it for either. The store then holds the node twice, once with the tags
    of each manager: the second write does not merge into the node of the
    first. *)
Theorem same_node_in_two_partitions_is_stored_twice
    (first second : Neo4jManager.t) (s : Session.State) (N : NodeObj.t) :
  let key self :=
    Cypher.map_merge (NodeObj.attributes N) (Neo4jManager.repo_id self)
      (Neo4jManager.entity_id self) in
  let created self :=
    Cypher.created_node (Neo4jManager.repo_id self)
      (Neo4jManager.entity_id self) N in
  Neo4jManager.repo_id first ≠ Neo4jManager.repo_id second
  ∨ Neo4jManager.entity_id first ≠ Neo4jManager.entity_id second →
  Forall (fun n => ¬ Graph.node_matches (Cypher.node_labels N) (key first) n)
         (Graph.nodes (Session.db s)) →
  Forall (fun n => ¬ Graph.node_matches (Cypher.node_labels N) (key second) n)
         (Graph.nodes (Session.db s)) →
  Graph.nodes
    (Session.db
       (Session.exec (Neo4jManager.save_graph first [N] [] ;;
                      Neo4jManager.save_graph second [N] []) s))
  = Graph.nodes (Session.db s) ++ [created first; created second].
Proof.
  intros key created Hdiff Hfirst Hsecond. subst key created. cbv beta in *.
  rewrite exec_bind, !db_save_graph. cbn [foldl].
  pose proof (apoc_merge_node_fresh _ _ _ Hfirst) as H1.
  unfold Cypher.merge_node at 1. rewrite apoc_merge_node_fresh.
  - unfold Cypher.merge_node. rewrite H1, <- app_assoc. reflexivity.
  - unfold Cypher.merge_node. rewrite H1. apply Forall_app.
    split; [exact Hsecond|]. apply Forall_singleton.
    apply merge_key_is_partitioned.
    destruct (created_node_is_tagged (Neo4jManager.repo_id first)
                (Neo4jManager.entity_id first) N) as [Hrepo Hentity].
    unfold Cypher.created_node in Hrepo, Hentity.
    cbn [Graph.properties] in *.
    destruct Hdiff as [Hd|Hd]; [left; rewrite Hrepo | right; rewrite Hentity];
      congruence.
Qed.

(** The theorem above for the function [b] written by the managers of two
    partitions into the empty store. *)
Lemma same_node_in_two_partitions_is_stored_twice_witness :
  Graph.nodes
    (Session.db
       (Session.exec
          (Neo4jManager.save_graph Sample.tenant1
             [Sample.function_node "b" "text"] [] ;;
           Neo4jManager.save_graph Sample.tenant2
             [Sample.function_node "b" "text"] [])
          Sample.s0))
  = [] ++ [Cypher.created_node "r1" "e1" (Sample.function_node "b" "text");
           Cypher.created_node "r2" "e2" (Sample.function_node "b" "text")].
Proof.
  apply (same_node_in_two_partitions_is_stored_twice Sample.tenant1
           Sample.tenant2 Sample.s0 (Sample.function_node "b" "text")).
  - left. discriminate.
  - apply Forall_nil_2.
  - apply Forall_nil_2.
Defined.

(** X22: an edge is matched against the nodes stored when it is written.
    When it is written in a call before the call that writes its source or
    its target, it adds no relationship, and the later node write adds
    none either: the relationships are those stored before. *)
Theorem edge_before_its_nodes_is_lost
    (self : Neo4jManager.t) (s : Session.State) (nodeList : list NodeObj.t)
    (e : EdgeObj.t) :
  let absent id :=
    Forall (fun n => Graph.properties n !! "node_id" ≠ Some (Graph.VStr id))
           (Graph.nodes (Session.db s)) in
  absent (EdgeObj.sourceId e) ∨ absent (EdgeObj.targetId e) →
  Graph.rels
    (Session.db
       (Session.exec (Neo4jManager.save_graph self [] [e] ;;
                      Neo4jManager.save_graph self nodeList []) s))
  = Graph.rels (Session.db s).
Proof.
  intros absent Habs. subst absent. cbv beta in Habs.
  rewrite exec_bind, !db_save_graph. cbn [foldl].
  assert (Cypher.merge_edge e (Session.db s) = Session.db s) as ->.
  { unfold Cypher.merge_edge. rewrite edge_rows_absent; [reflexivity|].
    destruct Habs as [Ha|Ha]; [left|right];
      apply absent_no_match; intros n Hin;
      rewrite Forall_forall in Ha; by apply Ha. }
  destruct (merge_nodes_adds (Neo4jManager.repo_id self)
              (Neo4jManager.entity_id self) nodeList (Session.db s))
    as [Hrels _].
  exact Hrels.
Qed.

(** The theorem above for the call from [a] to [b] written before the two
    functions. *)
Lemma edge_before_its_nodes_is_lost_witness :
  Graph.rels
    (Session.db
       (Session.exec
          (Neo4jManager.save_graph Sample.tenant1 [] [Sample.calls "a" "b"] ;;
           Neo4jManager.save_graph Sample.tenant1
             [Sample.function_node "a" "x"; Sample.function_node "b" "x"] [])
          Sample.s0))
  = Graph.rels (Session.db Sample.s0).
Proof.
  apply (edge_before_its_nodes_is_lost Sample.tenant1 Sample.s0
           [Sample.function_node "a" "x"; Sample.function_node "b" "x"]
           (Sample.calls "a" "b")).
  left. apply Forall_nil_2.
Defined.

(** ** Counting relationships by their key *)

Section KeyCount.
Import Graph.

Lemma filter_singleton_split {A} (P : A → Prop) `{!∀ x, Decision (P x)}
    (l : list A) (x : A) :
  filter P l = [x] →
  ∃ l1 l2, l = l1 ++ x :: l2
           ∧ Forall (fun y => ¬ P y) l1 ∧ P x ∧ Forall (fun y => ¬ P y) l2.
Proof.
  induction l as [|y l IH]; [discriminate|].
  rewrite filter_cons. destruct (decide (P y)) as [Hy|Hy].
  - intros [= -> Hnil]. exists [], l. split; [reflexivity|].
    split; [constructor|]. split; [exact Hy|].
    apply Forall_forall. intros z Hz Hpz.
    assert (z ∈ filter P l) as Hin by (by apply list_elem_of_filter).
    rewrite Hnil in Hin. by apply elem_of_nil in Hin.
  - intros Hf. destruct (IH Hf) as (l1 & l2 & -> & H1 & Hx & H2).
    exists (y :: l1), l2. split; [reflexivity|].
    split; [by constructor|]. split; assumption.
Qed.

Lemma positions_app (P : StoredNode → Prop) `{!∀ n, Decision (P n)}
    (l1 l2 : list StoredNode) : ∀ k,
  positions P k (l1 ++ l2)
  = positions P k l1 ++ positions P (k + List.length l1) l2.
Proof.
  induction l1 as [|n l1 IH]; intros k.
  - cbn. by rewrite Nat.add_0_r.
  - cbn [app positions List.length]. rewrite IH.
    replace (S k + List.length l1) with (k + S (List.length l1)) by lia.
    by destruct (decide (P n)).
Qed.

(** When one stored node has [id] as its [node_id], and it has the label
    [NODE], the match of an endpoint with that [id] is its position, and
    no other position holds a node with that [id]. *)
Lemma unique_endpoint (st : Store) (id : string) (n : StoredNode) :
  filter (Keys.has_id id) (nodes st) = [n] →
  "NODE" ∈ labels n →
  ∃ a, match_nodes ["NODE"] {["node_id" := VStr id]} st = [a]
       ∧ ∀ i, Keys.at_id st id i ↔ i = a.
Proof.
  intros Hone Hlabel.
  apply filter_singleton_split in Hone as (l1 & l2 & Hnodes & H1 & Hn & H2).
  exists (List.length l1). split.
  - unfold match_nodes. rewrite Hnodes, positions_app.
    cbn [positions]. rewrite decide_True by (by apply endpoint_matches).
    assert (∀ l k, Forall (fun y => ¬ Keys.has_id id y) l →
              positions (node_matches ["NODE"] {["node_id" := VStr id]}) k l
              = []) as Hnone.
    { intros l k Hl. apply positions_nil.
      eapply Forall_impl; [exact Hl|].
      intros y Hy [_ Hid]%endpoint_matches. by apply Hy. }
    by rewrite !Hnone.
  - intros i. unfold Keys.at_id. rewrite Hnodes. split.
    + destruct (decide (i < List.length l1)) as [Hlt|Hge].
      * rewrite lookup_app_l by exact Hlt.
        destruct (l1 !! i) as [y|] eqn:Hy; [|done].
        intros Hid. rewrite Forall_forall in H1.
        destruct (H1 y); [by eapply list_elem_of_lookup_2 | exact Hid].
      * rewrite lookup_app_r by lia.
        destruct (i - List.length l1) as [|j] eqn:Hj; [intros _; lia|].
        cbn. destruct (l2 !! j) as [y|] eqn:Hy; [|done].
        intros Hid. rewrite Forall_forall in H2.
        destruct (H2 y); [by eapply list_elem_of_lookup_2 | exact Hid].
    + intros ->. rewrite lookup_app_r by lia.
      by rewrite Nat.sub_diag.
Qed.

(** With one source and one target the relationships with the key of the
    edge are the relationships the merge of the edge matches. *)
Lemma count_key_unique (e : EdgeObj.t) (st : Store) (a b : nat) :
  (∀ i, Keys.at_id st (EdgeObj.sourceId e) i ↔ i = a) →
  (∀ i, Keys.at_id st (EdgeObj.targetId e) i ↔ i = b) →
  Keys.count_key e st
  = count_rels (EdgeObj.type e) (Cypher.edge_key e) a b st.
Proof.
  intros Ha Hb. unfold Keys.count_key, count_rels. f_equal.
  apply list_filter_iff. intros r.
  unfold Keys.has_key, rel_matches, Cypher.edge_key.
  rewrite map_singleton_subseteq_l, Ha, Hb. tauto.
Qed.

Lemma at_id_nodes (st st' : Store) (id : string) (i : nat) :
  nodes st' = nodes st → Keys.at_id st' id i ↔ Keys.at_id st id i.
Proof. intros Hn. unfold Keys.at_id. by rewrite Hn. Qed.

End KeyCount.

(** C4 (as the code has it): writing one node twice gives the store that
    writing it once gives, and the nodes that carry its merge key are one
    if there was none and as many as before otherwise; a node that is new
    to the store is the one node added. Writing one edge twice gives the
    store that writing it once gives; and when one stored node has the
    [sourceId] of the edge as its [node_id] and one has its [targetId],
    both with the label [NODE], the relationships with the key of the edge
    (source, target, type, scope text) are one if there was none, and as
    many as before otherwise. *)
Theorem bulk_ingest_is_idempotent
    (self : Neo4jManager.t) (s : Session.State) (N : NodeObj.t)
    (E : EdgeObj.t) :
  let repoId := Neo4jManager.repo_id self in
  let entityId := Neo4jManager.entity_id self in
  let ls := Cypher.node_labels N in
  let ps := Cypher.map_merge (NodeObj.attributes N) repoId entityId in
  let once_n := Session.exec (Neo4jManager.save_graph self [N] []) s in
  let twice_n := Session.exec (Neo4jManager.save_graph self [N] []) once_n in
  let once_e := Session.exec (Neo4jManager.save_graph self [] [E]) s in
  let twice_e := Session.exec (Neo4jManager.save_graph self [] [E]) once_e in
  Session.db twice_n = Session.db once_n
  ∧ List.length (filter (Graph.node_matches ls ps)
                   (Graph.nodes (Session.db twice_n)))
    = Nat.max 1 (List.length (filter (Graph.node_matches ls ps)
                                (Graph.nodes (Session.db s))))
  ∧ (filter (Graph.node_matches ls ps) (Graph.nodes (Session.db s)) = [] →
     Graph.nodes (Session.db twice_n)
     = Graph.nodes (Session.db s) ++ [Cypher.created_node repoId entityId N])
  ∧ Session.db twice_e = Session.db once_e
  ∧ ∀ source target,
      filter (Keys.has_id (EdgeObj.sourceId E)) (Graph.nodes (Session.db s))
      = [source] →
      "NODE" ∈ Graph.labels source →
      filter (Keys.has_id (EdgeObj.targetId E)) (Graph.nodes (Session.db s))
      = [target] →
      "NODE" ∈ Graph.labels target →
      Keys.count_key E (Session.db twice_e)
      = Nat.max 1 (Keys.count_key E (Session.db s)).
Proof.
  intros repoId entityId ls ps once_n twice_n once_e twice_e.
  assert (Session.db once_n = Graph.apoc_merge_node ls ps (Session.db s))
    as Hn1 by (unfold once_n; by rewrite db_save_graph).
  assert (Session.db twice_n = Session.db once_n) as Hn2.
  { unfold twice_n. rewrite db_save_graph. cbn [foldl].
    rewrite Hn1. apply apoc_merge_node_idem. }
  assert (Session.db once_e = Cypher.merge_edge E (Session.db s))
    as He1 by (unfold once_e; by rewrite db_save_graph).
  assert (Session.db twice_e = Session.db once_e) as He2.
  { unfold twice_e. rewrite db_save_graph. cbn [foldl].
    rewrite He1. apply merge_edge_idem. }
  split; [exact Hn2|]. split; [|split; [|split; [exact He2|]]].
  - rewrite Hn2, Hn1.
    rewrite <- !(length_positions (Graph.node_matches ls ps) _ 0).
    apply apoc_merge_node_count.
  - intros Hnone. rewrite Hn2, Hn1.
    apply apoc_merge_node_fresh. apply (positions_nil _ _ 0).
    apply nil_length_inv.
    by rewrite (length_positions (Graph.node_matches ls ps) _ 0), Hnone.
  - intros source target Hsource Hslabel Htarget Htlabel.
    destruct (unique_endpoint _ _ _ Hsource Hslabel) as (a & Hma & Ha).
    destruct (unique_endpoint _ _ _ Htarget Htlabel) as (b & Hmb & Hb).
    rewrite He2, He1.
    assert (Cypher.edge_rows E (Session.db s) = [(a, b)]) as Hrows
      by (unfold Cypher.edge_rows; by rewrite Hma, Hmb).
    rewrite (count_key_unique E (Session.db s) a b Ha Hb).
    rewrite (count_key_unique E (Cypher.merge_edge E (Session.db s)) a b).
    + unfold Cypher.merge_edge. rewrite Hrows. cbn [Cypher.merge_rows foldl].
      cbn [fst snd]. apply merge_relationship_count_same.
    + intros i. by rewrite at_id_nodes by apply merge_edge_nodes.
    + intros i. by rewrite at_id_nodes by apply merge_edge_nodes.
Qed.

(** C4, the input that refutes the edge half as it was worded: the function
    [a] is stored twice (it was written with the text [old] and again with
    the text [new]), the function [b] once, and the call from [a] to [b] is
    written twice. Both endpoints are present, and the store holds two
    relationships with the key of the edge, one from each node [a]. *)
Lemma one_edge_leaves_a_relationship_for_each_source :
  let s :=
    Session.exec
      (Neo4jManager.save_graph Sample.tenant1
         [Sample.function_node "a" "old"; Sample.function_node "a" "new";
          Sample.function_node "b" "text"] [])
      Sample.s0 in
  let E := Sample.calls "a" "b" in
  let once := Session.exec (Neo4jManager.save_graph Sample.tenant1 [] [E]) s in
  let twice :=
    Session.exec (Neo4jManager.save_graph Sample.tenant1 [] [E]) once in
  Exists (Keys.has_id "a") (Graph.nodes (Session.db s))
  ∧ Exists (Keys.has_id "b") (Graph.nodes (Session.db s))
  ∧ Keys.count_key E (Session.db twice) = 2
  ∧ Keys.count_key E (Session.db twice) ≠ 1.
Proof.
  cbn zeta.
  split; [apply (bool_decide_unpack _); vm_compute; exact I|].
  split; [apply (bool_decide_unpack _); vm_compute; exact I|].
  assert (Keys.count_key (Sample.calls "a" "b")
            (Session.db
               (Session.exec
                  (Neo4jManager.save_graph Sample.tenant1 []
                     [Sample.calls "a" "b"])
                  (Session.exec
                     (Neo4jManager.save_graph Sample.tenant1 []
                        [Sample.calls "a" "b"])
                     (Session.exec
                        (Neo4jManager.save_graph Sample.tenant1
                           [Sample.function_node "a" "old";
                            Sample.function_node "a" "new";
                            Sample.function_node "b" "text"] [])
                        Sample.s0)))) = 2) as H2
    by (vm_compute; reflexivity).
  split; [exact H2|]. rewrite H2. discriminate.
Qed.

(** The theorem above for the call from [a] to [b] when each of the two
    functions is stored once: one relationship with the key. *)
Lemma bulk_ingest_is_idempotent_witness :
  let s :=
    Session.exec
      (Neo4jManager.save_graph Sample.tenant1
         [Sample.function_node "a" "text"; Sample.function_node "b" "text"] [])
      Sample.s0 in
  let E := Sample.calls "a" "b" in
  Keys.count_key E
    (Session.db
       (Session.exec (Neo4jManager.save_graph Sample.tenant1 [] [E])
          (Session.exec (Neo4jManager.save_graph Sample.tenant1 [] [E]) s)))
  = Nat.max 1 (Keys.count_key E (Session.db s)).
Proof.
  cbn zeta.
  apply (bulk_ingest_is_idempotent Sample.tenant1
           (Session.exec
              (Neo4jManager.save_graph Sample.tenant1
                 [Sample.function_node "a" "text";
                  Sample.function_node "b" "text"] [])
              Sample.s0)
           (Sample.function_node "a" "text") (Sample.calls "a" "b"))
    with (source := Cypher.created_node "r1" "e1"
                      (Sample.function_node "a" "text"))
         (target := Cypher.created_node "r1" "e1"
                      (Sample.function_node "b" "text")).
  - vm_compute. reflexivity.
  - apply (bool_decide_unpack _). vm_compute. exact I.
  - vm_compute. reflexivity.
  - apply (bool_decide_unpack _). vm_compute. exact I.
Defined.
